(** * Checkpointing helpers of [apputils/checkpoint.py]

    A shallow embedding of [save_checkpoint] and [load_checkpoint] and the
    properties of the two functions.

    The two functions are glue around objects that live elsewhere (the
    torch model and optimizer, distiller's [CompressionScheduler] and
    thinning executor, torch's pickling).  Those objects are taken as a
    parameter of the development, the class [Collaborators]; the two
    functions themselves are transcribed statement by statement in a
    state-and-exception monad over an explicit world (file system, logger
    output, object store). *)

From Stdlib Require Import ZArith.
From Stdlib.Strings Require Import Byte.
From stdpp Require Import gmap strings list fin_maps functions.

Local Open Scope Z_scope.
Local Open Scope string_scope.

(** ** Python values *)

(** The objects this module only passes around: tensors held by a state
    dictionary, and every other object whose inside it never looks at
    (a float accuracy, an optimizer state, a schedule state, a recipe). *)
Class PyObjects := {
  Tensor : Type;
  Obj : Type
}.

Section Values.
Context {O : PyObjects}.

(** [model.state_dict()]: an ordered mapping from parameter name to tensor. *)
Definition StateDict : Type := list (string * Tensor).

Inductive value :=
| VNone
| VInt (z : Z)
| VStr (s : string)
| VStateDict (sd : StateDict)
| VObj (o : Obj).

(** [v is not None] *)
Definition is_not_none (v : value) : bool :=
  match v with VNone => false | _ => true end.

(** [k in d] for a dict [d] *)
Definition py_in (k : string) (d : gmap string value) : bool :=
  if d !! k is Some _ then true else false.

(** [d.get(k, None)] *)
Definition py_get (d : gmap string value) (k : string) : value :=
  default VNone (d !! k).

End Values.

(** ** Exceptions and results *)

Inductive exn :=
| KeyError (key : string)
| TypeError
| FileNotFoundError (path : string)
| IsADirectoryError (path : string)
| SameFileError (path : string)
| UnpicklingError
| External (what : string).

(** How a call ends: it returns, it raises an exception (an instance of
    [Exception]), or it runs [exit(code)].  [exit] raises [SystemExit],
    which is not an [Exception]; left alone it ends the interpreter with
    status [code]. *)
Inductive outcome (A : Type) :=
| Ok (a : A)
| Raise (e : exn)
| Exit (code : Z).
Arguments Ok {A} a.
Arguments Raise {A} e.
Arguments Exit {A} code.

(** What a collaborator call gives back: a result, or a failure of its
    own, which the caller here never handles. *)
Inductive collab (A : Type) :=
| Return (a : A)
| Fail (what : string).
Arguments Return {A} a.
Arguments Fail {A} what.

(** ** Collaborators *)

(** Object references. *)
Abbreviation ref := nat.

Class Collaborators `{PyObjects} := {
  Model : Type;
  Optimizer : Type;
  Scheduler : Type;
  (** [model.state_dict()] *)
  state_dict_of : Model → StateDict;
  (** [model.load_state_dict(state)], updating the model in place *)
  load_state_dict_into : value → Model → collab Model;
  (** the attribute [model.thinning_recipe], when the model has one *)
  thinning_recipe_of : Model → option value;
  (** [optimizer.state_dict()] *)
  optimizer_state : Optimizer → Obj;
  (** [scheduler.state_dict()] *)
  scheduler_state : Scheduler → Obj;
  (** [distiller.CompressionScheduler(model)]: the new scheduler keeps the
      reference to the model *)
  scheduler_init : ref → Model → collab Scheduler;
  (** [scheduler.load_state_dict(state)] *)
  scheduler_restore : value → Scheduler → collab Scheduler;
  (** [distiller.execute_thinning_recipe(model, zeros_mask_dict, recipe)]:
      the mask table is an object owned by the scheduler, so the executor
      can update the model and the scheduler *)
  thinning_apply : value → Model → Scheduler → collab (Model * Scheduler);
  (** [o + n] for an opaque object [o] *)
  object_add : Obj → Z → collab value;
  (** the bytes [torch.save] writes for a dict, and what [torch.load]
      makes of the bytes of a file ([None]: they do not unpickle to a
      dict) *)
  serialize : gmap string value → list byte;
  deserialize : list byte → option (gmap string value)
}.

(** ** The world *)

(** The file system is a flat name space of regular files and
    directories.  Permissions, links, missing parent directories and full
    disks are outside the model: writing a regular file succeeds unless the
    name is a directory. *)
Inductive node :=
| Regular (data : list byte)
| Directory.

Section World.
Context {O : PyObjects} {C : Collaborators}.

(** A record of [msglogger.info(fmt, *args)]. *)
Definition log_record : Type := string * list value.

(** Calls into the collaborators that can change an object. *)
Inductive call :=
| CallCompressionScheduler (model : ref)
| CallSchedulerLoadStateDict (state : value)
| CallExecuteThinningRecipe (model : ref) (recipe : value)
| CallModelLoadStateDict (model : ref) (state : value).

Record world := World {
  fs : gmap string node;
  log : list log_record;
  calls : list call;
  models : ref → Model;
  optimizers : ref → Optimizer
}.

Definition set_fs (f : gmap string node) (w : world) : world :=
  World f (log w) (calls w) (models w) (optimizers w).
Definition add_log (r : log_record) (w : world) : world :=
  World (fs w) (log w ++ [r]) (calls w) (models w) (optimizers w).
Definition add_call (c : call) (w : world) : world :=
  World (fs w) (log w) (calls w ++ [c]) (models w) (optimizers w).
Definition set_model (l : ref) (m : Model) (w : world) : world :=
  World (fs w) (log w) (calls w) (<[l := m]> (models w)) (optimizers w).

(** ** The monad *)

Definition M (A : Type) : Type := world → outcome A * world.

#[global] Instance M_ret : MRet M := λ A a w, (Ok a, w).
#[global] Instance M_bind : MBind M := λ A B f m w,
  match m w with
  | (Ok a, w') => f a w'
  | (Raise e, w') => (Raise e, w')
  | (Exit c, w') => (Exit c, w')
  end.

Definition raise {A} (e : exn) : M A := λ w, (Raise e, w).
Definition exit {A} (code : Z) : M A := λ w, (Exit code, w).
Definition lift {A} (r : collab A) : M A :=
  match r with
  | Return a => mret a
  | Fail what => raise (External what)
  end.

Definition msglogger_info (fmt : string) (args : list value) : M unit :=
  λ w, (Ok tt, add_log (fmt, args) w).
Definition record_call (c : call) : M unit :=
  λ w, (Ok tt, add_call c w).
Definition get_model (l : ref) : M Model := λ w, (Ok (models w l), w).
Definition put_model (l : ref) (m : Model) : M unit :=
  λ w, (Ok tt, set_model l m w).
Definition get_optimizer (l : ref) : M Optimizer :=
  λ w, (Ok (optimizers w l), w).

(** ** Python and library primitives *)

(** [d[k]] *)
Definition getitem (d : gmap string value) (k : string) : M value :=
  match d !! k with
  | Some v => mret v
  | None => raise (KeyError k)
  end.

(** [v + n] with [n] an int *)
Definition py_add (v : value) (n : Z) : M value :=
  match v with
  | VInt z => mret (VInt (z + n))
  | VObj o => lift (object_add o n)
  | VNone | VStr _ | VStateDict _ => raise TypeError
  end.

(** [os.path.isfile(path)] *)
Definition os_path_isfile (path : string) : M bool := λ w,
  (Ok (if fs w !! path is Some (Regular _) then true else false), w).

(** [torch.save(obj, f)] *)
Definition torch_save (obj : gmap string value) (f : string) : M unit := λ w,
  match fs w !! f with
  | Some Directory => (Raise (IsADirectoryError f), w)
  | _ => (Ok tt, set_fs (<[f := Regular (serialize obj)]> (fs w)) w)
  end.

(** [torch.load(f)] *)
Definition torch_load (f : string) : M (gmap string value) := λ w,
  match fs w !! f with
  | Some (Regular data) =>
      match deserialize data with
      | Some obj => (Ok obj, w)
      | None => (Raise UnpicklingError, w)
      end
  | Some Directory => (Raise (IsADirectoryError f), w)
  | None => (Raise (FileNotFoundError f), w)
  end.

(** [shutil.copyfile(src, dst)] *)
Definition shutil_copyfile (src dst : string) : M unit := λ w,
  if decide (src = dst) then (Raise (SameFileError src), w) else
  match fs w !! src with
  | Some (Regular data) =>
      match fs w !! dst with
      | Some Directory => (Raise (IsADirectoryError dst), w)
      | _ => (Ok tt, set_fs (<[dst := Regular data]> (fs w)) w)
      end
  | Some Directory => (Raise (IsADirectoryError src), w)
  | None => (Raise (FileNotFoundError src), w)
  end.

(** [distiller.CompressionScheduler(model)] *)
Definition CompressionScheduler (model : ref) : M Scheduler :=
  record_call (CallCompressionScheduler model);;
  m ← get_model model;
  lift (scheduler_init model m).

(** [scheduler.load_state_dict(state)] on the scheduler just built *)
Definition scheduler_load_state_dict (s : Scheduler) (state : value)
  : M Scheduler :=
  record_call (CallSchedulerLoadStateDict state);;
  lift (scheduler_restore state s).

(** [distiller.execute_thinning_recipe(model, s.zeros_mask_dict, recipe)] *)
Definition execute_thinning_recipe (model : ref) (s : Scheduler)
  (recipe : value) : M Scheduler :=
  record_call (CallExecuteThinningRecipe model recipe);;
  m ← get_model model;
  '(m', s') ← lift (thinning_apply recipe m s);
  put_model model m';;
  mret s'.

(** [model.load_state_dict(state)] *)
Definition model_load_state_dict (model : ref) (state : value) : M unit :=
  record_call (CallModelLoadStateDict model state);;
  m ← get_model model;
  m' ← lift (load_state_dict_into state m);
  put_model model m'.

End World.

(** ** [save_checkpoint] *)

Section Checkpoint.
Context {O : PyObjects} {C : Collaborators}.

(** Lines 45 and 46: the two file names. *)
Definition checkpoint_filename (name : option string) : string :=
  match name with
  | None => "checkpoint.pth.tar"
  | Some name => name ++ "_checkpoint.pth.tar"
  end.

Definition best_filename (name : option string) : string :=
  match name with
  | None => "best.pth.tar"
  | Some name => name ++ "_best.pth.tar"
  end.

(** Lines 47 to 57: the dict [checkpoint], built from the arguments, with
    the model and the optimizer read from the store. *)
Definition checkpoint_record (epoch : Z) (arch : string) (m : Model)
  (o : Optimizer) (scheduler : option Scheduler) (best_top1 : value)
  : gmap string value :=
  let checkpoint : gmap string value := ∅ in
  let checkpoint := <["epoch" := VInt epoch]> checkpoint in
  let checkpoint := <["arch" := VStr arch]> checkpoint in
  let checkpoint := <["state_dict" := VStateDict (state_dict_of m)]> checkpoint in
  let checkpoint :=
    if is_not_none best_top1
    then <["best_top1" := best_top1]> checkpoint
    else checkpoint in
  let checkpoint := <["optimizer" := VObj (optimizer_state o)]> checkpoint in
  let checkpoint :=
    match scheduler with
    | Some s => <["compression_sched" := VObj (scheduler_state s)]> checkpoint
    | None => checkpoint
    end in
  let checkpoint :=
    match thinning_recipe_of m with
    | Some recipe => <["thinning_recipe" := recipe]> checkpoint
    | None => checkpoint
    end in
  checkpoint.

Definition save_checkpoint (epoch : Z) (arch : string) (model optimizer : ref)
  (scheduler : option Scheduler) (best_top1 : value) (is_best : bool)
  (name : option string) : M unit :=
  msglogger_info "Saving checkpoint" [];;
  let filename := checkpoint_filename name in
  let filename_best := best_filename name in
  m ← get_model model;
  o ← get_optimizer optimizer;
  let checkpoint := checkpoint_record epoch arch m o scheduler best_top1 in
  torch_save checkpoint filename;;
  if is_best
  then shutil_copyfile filename filename_best
  else mret tt.

(** ** [load_checkpoint] *)

Definition load_checkpoint (model : ref) (chkpt_file : string)
  (optimizer : option ref) : M (ref * option Scheduler * value) :=
  let compression_scheduler : option Scheduler := None in
  let start_epoch := VInt 0 in
  isfile ← os_path_isfile chkpt_file;
  if isfile : bool then
    msglogger_info "=> loading checkpoint %s" [VStr chkpt_file];;
    checkpoint ← torch_load chkpt_file;
    epoch ← getitem checkpoint "epoch";
    start_epoch ← py_add epoch 1;
    let best_top1 := py_get checkpoint "best_top1" in
    (if is_not_none best_top1
     then msglogger_info "   best top@1: %.3f" [best_top1]
     else mret tt);;
    compression_scheduler ←
      (if py_in "compression_sched" checkpoint then
         compression_scheduler ← CompressionScheduler model;
         state ← getitem checkpoint "compression_sched";
         compression_scheduler ←
           scheduler_load_state_dict compression_scheduler state;
         epoch ← getitem checkpoint "epoch";
         msglogger_info
           "Loaded compression schedule from checkpoint (epoch %d)" [epoch];;
         if py_in "thinning_recipe" checkpoint then
           msglogger_info "Loaded a thinning recipe from the checkpoint" [];;
           recipe ← getitem checkpoint "thinning_recipe";
           compression_scheduler ←
             execute_thinning_recipe model compression_scheduler recipe;
           mret (Some compression_scheduler)
         else mret (Some compression_scheduler)
       else
         msglogger_info
           "Warning: compression schedule data does not exist in the checkpoint"
           [];;
         epoch ← getitem checkpoint "epoch";
         msglogger_info "=> loaded checkpoint '%s' (epoch %d)"
           [VStr chkpt_file; epoch];;
         mret compression_scheduler);
    state ← getitem checkpoint "state_dict";
    model_load_state_dict model state;;
    mret (model, compression_scheduler, start_epoch)
  else
    msglogger_info "Error: no checkpoint found at %s" [VStr chkpt_file];;
    exit 1.

End Checkpoint.

(** ** A reference set of collaborators

    A small, executable stand-in for torch and distiller, used to run the
    two functions on concrete inputs: a model is its parameters and its
    optional recipe, loading a state is strict about the parameter names,
    a recipe names the parameter that thinning removes, and a dict is
    pickled through its code in stdpp's [Countable]. *)

Module Demo.

#[export] Instance objects : PyObjects := {| Tensor := list Z; Obj := string |}.

Definition value_to_sum (v : value)
  : unit + (Z + (string + (list (string * list Z) + string))) :=
  match v with
  | VNone => inl tt
  | VInt z => inr (inl z)
  | VStr s => inr (inr (inl s))
  | VStateDict sd => inr (inr (inr (inl sd)))
  | VObj o => inr (inr (inr (inr o)))
  end.

Definition sum_to_value
  (x : unit + (Z + (string + (list (string * list Z) + string)))) : value :=
  match x with
  | inl _ => VNone
  | inr (inl z) => VInt z
  | inr (inr (inl s)) => VStr s
  | inr (inr (inr (inl sd))) => VStateDict sd
  | inr (inr (inr (inr o))) => VObj o
  end.

#[export] Instance value_eq_dec : EqDecision value.
Proof.
  intros x y. destruct (decide (value_to_sum x = value_to_sum y)) as [E|E].
  - left. destruct x, y; simpl in E; congruence.
  - right. intros ->. by apply E.
Defined.

#[export] Instance value_countable : Countable value.
Proof.
  apply (inj_countable' value_to_sum sum_to_value). by intros [].
Defined.

(** A positive number as a byte string, one bit per byte. *)
Fixpoint pos_to_bytes (p : positive) : list byte :=
  match p with
  | xH => []
  | xO p => x00 :: pos_to_bytes p
  | xI p => x01 :: pos_to_bytes p
  end.

Fixpoint bytes_to_pos (bs : list byte) : option positive :=
  match bs with
  | [] => Some xH
  | x00 :: bs => xO <$> bytes_to_pos bs
  | x01 :: bs => xI <$> bytes_to_pos bs
  | _ :: _ => None
  end.

Record model := Model_ {
  params : list (string * list Z);
  recipe : option value
}.

Record scheduler := Scheduler_ {
  sched_model : nat;
  masks : string
}.

Definition load_params (state : value) (m : model) : collab model :=
  match state with
  | VStateDict sd =>
      if decide (sd.*1 = (params m).*1)
      then Return (Model_ sd (recipe m))
      else Fail "Error(s) in loading state_dict"
  | _ => Fail "Error(s) in loading state_dict"
  end.

Definition restore_masks (state : value) (s : scheduler) : collab scheduler :=
  match state with
  | VObj o => Return (Scheduler_ (sched_model s) o)
  | _ => Fail "could not load the CompressionScheduler state"
  end.

Definition thin (r : value) (m : model) (s : scheduler)
  : collab (model * scheduler) :=
  match r with
  | VObj name =>
      Return (Model_ (filter (λ p, p.1 ≠ name) (params m)) (Some r), s)
  | _ => Fail "not a thinning recipe"
  end.

#[export] Instance collaborators : Collaborators := {|
  Model := model;
  Optimizer := string;
  Scheduler := scheduler;
  state_dict_of := params;
  load_state_dict_into := load_params;
  thinning_recipe_of := recipe;
  optimizer_state := id;
  scheduler_state := masks;
  scheduler_init := λ l _, Return (Scheduler_ l "");
  scheduler_restore := restore_masks;
  thinning_apply := thin;
  object_add := λ _ _, Fail "unsupported operand type(s) for +";
  serialize := λ d, pos_to_bytes (encode d);
  deserialize := λ bs, bytes_to_pos bs ≫= decode
|}.

(** The best accuracy so far, and the recipe that removes [fc.bias]. *)
Definition accuracy : value := VObj "71.2".
Definition drop_bias : value := VObj "fc.bias".

(** A model of two layers with no recipe, and a world holding it. *)
Definition net : model :=
  Model_ [("conv1.weight", [1; -2; 3]); ("fc.bias", [7])] None.

(** The same architecture with other parameter values. *)
Definition fresh_net : model :=
  Model_ [("conv1.weight", [0; 0; 0]); ("fc.bias", [0])] None.

(** A thinned model: [fc.bias] was removed, and the recipe says so. *)
Definition thin_net : model :=
  Model_ [("conv1.weight", [1; -2; 3])] (Some drop_bias).

(** Reference 0 is [net], 1 is [fresh_net], the others are [thin_net];
    every optimizer is in the state [sgd]. *)
Definition store (l : nat) : model :=
  match l with
  | O => net
  | S O => fresh_net
  | _ => thin_net
  end.

Definition world0 : world := World ∅ [] [] store (λ _, "sgd").

(** A world whose only file is a directory. *)
Definition world_dir : world :=
  World {["ckpt" := Directory]} [] [] store (λ _, "sgd").

(** The scenario of the design's section 8: epoch 5 of [resnet18], no
    scheduler, best accuracy 71.2, a best checkpoint, the name [run1]. *)
Definition run1 : M unit :=
  save_checkpoint 5 "resnet18" 0%nat 0%nat None accuracy true
    (Some "run1").

(** Saving the thinned model, reference 2, at epoch 3 under the default
    name: with the scheduler [sched], and with no scheduler. *)
Definition sched : scheduler := Scheduler_ 2 "masks".

Definition save_thin (s : option scheduler) : M unit :=
  save_checkpoint 3 "resnet18" 2%nat 0%nat s VNone false None.

(** A world whose only file, [ckpt], holds the pickled dict [d]. *)
Definition world_of (d : gmap string value) : world :=
  World {["ckpt" := Regular (serialize d)]} [] [] store (λ _, "sgd").

(** Dicts that are not well-formed records: no epoch, a string for an
    epoch, and no state. *)
Definition no_epoch : gmap string value := {["arch" := VStr "resnet18"]}.
Definition bad_epoch : gmap string value := {["epoch" := VStr "five"]}.
Definition no_state : gmap string value :=
  <["compression_sched" := VObj "masks"]> {["epoch" := VInt 5]}.

(** A world whose only file does not unpickle. *)
Definition world_garbage : world :=
  World {["ckpt" := Regular [x02]]} [] [] store (λ _, "sgd").



(** Worlds where a directory takes the default primary name, and the
    default best name. *)
(** The pickled states of [sched] and of the optimizers. *)
Definition masks_state : value := VObj "masks".
Definition sgd_state : value := VObj "sgd".

(** The states of the thinned model and of [net], as stored. *)
Definition thin_state : value := VStateDict (params thin_net).
Definition net_state : value := VStateDict (params net).


Definition world_best_blocked : world :=
  World {["best.pth.tar" := Directory]} [] [] store (λ _, "sgd").

End Demo.

(** ** Statements about runs *)

Section Statements.
Context {O : PyObjects} {C : Collaborators}.

(** The name [p] is taken by a directory. *)
Definition is_dir (w : world) (p : string) : bool :=
  if fs w !! p is Some Directory then true else false.

(** The field names of a checkpoint record (section 3 of the design). *)
Definition record_fields : gset string :=
  {[ "epoch"; "arch"; "state_dict"; "best_top1"; "optimizer";
     "compression_sched"; "thinning_recipe" ]}.

(** [torch.load] gives back the dict that [torch.save] wrote. *)
Definition pickle_roundtrip : Prop :=
  ∀ d : gmap string value, deserialize (serialize d) = Some d.

(** When [model.load_state_dict(sd)] returns, [model.state_dict()] is [sd]. *)
Definition load_state_dict_restores : Prop :=
  ∀ (sd : StateDict) (m m' : Model),
    load_state_dict_into (VStateDict sd) m = Return m' → state_dict_of m' = sd.

(** A call that builds or restores a scheduler, or runs a thinning recipe. *)
Definition rebuilds_schedule (k : call) : bool :=
  match k with
  | CallCompressionScheduler _ => true
  | CallSchedulerLoadStateDict _ => true
  | CallExecuteThinningRecipe _ _ => true
  | CallModelLoadStateDict _ _ => false
  end.

(** The collaborator calls that a load of [record] into [model] makes, in
    order, all return: building and restoring the scheduler when the record
    has a schedule, then executing the recipe when it also has one, then
    [model.load_state_dict], which gives the model [m']. *)
Definition collaborators_accept (record : gmap string value) (model : ref)
  (w : world) (m' : Model) : Prop :=
  ∃ state, record !! "state_dict" = Some state ∧
  match record !! "compression_sched" with
  | None => load_state_dict_into state (models w model) = Return m'
  | Some sched_state =>
      ∃ s0 s1,
        scheduler_init model (models w model) = Return s0 ∧
        scheduler_restore sched_state s0 = Return s1 ∧
        match record !! "thinning_recipe" with
        | None => load_state_dict_into state (models w model) = Return m'
        | Some recipe =>
            ∃ m1 s2,
              thinning_apply recipe (models w model) s1 = Return (m1, s2) ∧
              load_state_dict_into state m1 = Return m'
        end
  end.

(** The collaborator calls of a load that runs to its end on [record], in
    the order of the source: the scheduler is built and restored when the
    record has a schedule, the recipe is executed inside that branch, and
    the state is loaded last. *)
Definition expected_calls (record : gmap string value) (model : ref)
  : list call :=
  (match record !! "compression_sched" with
   | Some sched_state =>
       [CallCompressionScheduler model;
        CallSchedulerLoadStateDict sched_state] ++
       match record !! "thinning_recipe" with
       | Some recipe => [CallExecuteThinningRecipe model recipe]
       | None => []
       end
   | None => []
   end ++
   match record !! "state_dict" with
   | Some state => [CallModelLoadStateDict model state]
   | None => []
   end)%list.

(** The computation [m], started in [w], ends in a result and a world that
    satisfy [Q]. *)
Definition wp {A} (m : M A) (w : world) (Q : outcome A → world → Prop) : Prop :=
  Q (m w).1 (m w).2.

End Statements.

(** ** Rules for running the monad *)

Section Rules.
Context {O : PyObjects} {C : Collaborators}.

Lemma wp_elim {A} (m : M A) w (Q : outcome A → world → Prop) :
  wp m w Q → ∀ r w', m w = (r, w') → Q r w'.
Proof. unfold wp. intros HQ r w' E. by rewrite E in HQ. Qed.

Lemma wp_bind {A B} (m : M A) (f : A → M B) w Q :
  wp m w (λ r w',
    match r with
    | Ok a => wp (f a) w' Q
    | Raise e => Q (Raise e) w'
    | Exit c => Q (Exit c) w'
    end) →
  wp (m ≫= f) w Q.
Proof.
  unfold wp, mbind, M_bind. by destruct (m w) as [[a|e|c] w'].
Qed.

Lemma wp_ret {A} (a : A) w Q : Q (Ok a) w → wp (mret a) w Q.
Proof. done. Qed.

Lemma wp_raise {A} e w (Q : outcome A → world → Prop) :
  Q (Raise e) w → wp (raise e) w Q.
Proof. done. Qed.

Lemma wp_exit {A} c w (Q : outcome A → world → Prop) :
  Q (Exit c) w → wp (exit c) w Q.
Proof. done. Qed.

Lemma wp_lift {A} (r : collab A) w Q :
  match r with
  | Return a => Q (Ok a) w
  | Fail what => Q (Raise (External what)) w
  end →
  wp (lift r) w Q.
Proof. by destruct r. Qed.

Lemma wp_info fmt args w Q :
  Q (Ok tt) (add_log (fmt, args) w) → wp (msglogger_info fmt args) w Q.
Proof. done. Qed.

Lemma wp_record_call k w Q :
  Q (Ok tt) (add_call k w) → wp (record_call k) w Q.
Proof. done. Qed.

Lemma wp_get_model l w Q : Q (Ok (models w l)) w → wp (get_model l) w Q.
Proof. done. Qed.

Lemma wp_put_model l m w Q :
  Q (Ok tt) (set_model l m w) → wp (put_model l m) w Q.
Proof. done. Qed.

Lemma wp_get_optimizer l w Q :
  Q (Ok (optimizers w l)) w → wp (get_optimizer l) w Q.
Proof. done. Qed.

Lemma wp_getitem d k w Q :
  match d !! k with
  | Some v => Q (Ok v) w
  | None => Q (Raise (KeyError k)) w
  end →
  wp (getitem d k) w Q.
Proof. unfold getitem. by destruct (d !! k). Qed.

Lemma wp_py_add v n w Q :
  match v with
  | VInt z => Q (Ok (VInt (z + n))) w
  | VObj o => wp (lift (object_add o n)) w Q
  | VNone | VStr _ | VStateDict _ => Q (Raise TypeError) w
  end →
  wp (py_add v n) w Q.
Proof. by destruct v. Qed.

Lemma wp_isfile path w Q :
  Q (Ok (if fs w !! path is Some (Regular _) then true else false)) w →
  wp (os_path_isfile path) w Q.
Proof. done. Qed.

Lemma wp_torch_load f w Q :
  match fs w !! f with
  | Some (Regular data) =>
      match deserialize data with
      | Some obj => Q (Ok obj) w
      | None => Q (Raise UnpicklingError) w
      end
  | Some Directory => Q (Raise (IsADirectoryError f)) w
  | None => Q (Raise (FileNotFoundError f)) w
  end →
  wp (torch_load f) w Q.
Proof.
  unfold wp, torch_load.
  destruct (fs w !! f) as [[data|]|]; [|done..]. by destruct (deserialize data).
Qed.

End Rules.

(** One step of a run: the rule of the computation's head, then the
    continuation applied to what the step gave. *)
Ltac wp_rule :=
  lazymatch goal with
  | |- wp (_ ≫= _) _ _ => apply wp_bind
  | |- wp (mret _) _ _ => apply wp_ret
  | |- wp (raise _) _ _ => apply wp_raise
  | |- wp (exit _) _ _ => apply wp_exit
  | |- wp (lift _) _ _ => apply wp_lift
  | |- wp (msglogger_info _ _) _ _ => apply wp_info
  | |- wp (record_call _) _ _ => apply wp_record_call
  | |- wp (get_model _) _ _ => apply wp_get_model
  | |- wp (put_model _ _) _ _ => apply wp_put_model
  | |- wp (get_optimizer _) _ _ => apply wp_get_optimizer
  | |- wp (getitem _ _) _ _ => apply wp_getitem
  | |- wp (py_add _ _) _ _ => apply wp_py_add
  | |- wp (os_path_isfile _) _ _ => apply wp_isfile
  | |- wp (torch_load _) _ _ => apply wp_torch_load
  | |- wp (CompressionScheduler _) _ _ => unfold CompressionScheduler
  | |- wp (scheduler_load_state_dict _ _) _ _ =>
      unfold scheduler_load_state_dict
  | |- wp (execute_thinning_recipe _ _ _) _ _ =>
      unfold execute_thinning_recipe
  | |- wp (model_load_state_dict _ _) _ _ => unfold model_load_state_dict
  end.

Ltac wp_step :=
  lazymatch goal with
  | |- wp (if ?b then _ else _) _ _ => destruct b eqn:?
  | |- wp (match ?x with _ => _ end) _ _ => destruct x eqn:?
  | |- match ?x with _ => _ end => destruct x eqn:?
  | |- wp _ _ _ =>
      wp_rule; cbv beta iota;
      cbn [fs log calls models optimizers add_log add_call set_fs set_model]
  end.

(** ** The record [save_checkpoint] builds *)

Section RecordFacts.
Context {O : PyObjects} {C : Collaborators}.
Variables (epoch : Z) (arch : string) (m : Model) (o : Optimizer).
Variables (scheduler : option Scheduler) (best_top1 : value).

#[local] Abbreviation c :=
  (checkpoint_record epoch arch m o scheduler best_top1).

Ltac record_lookup :=
  unfold checkpoint_record;
  destruct (thinning_recipe_of m), scheduler, (is_not_none best_top1);
  by simplify_map_eq.

Lemma record_epoch : c !! "epoch" = Some (VInt epoch).
Proof. record_lookup. Qed.

Lemma record_arch : c !! "arch" = Some (VStr arch).
Proof. record_lookup. Qed.

Lemma record_state_dict :
  c !! "state_dict" = Some (VStateDict (state_dict_of m)).
Proof. record_lookup. Qed.

Lemma record_optimizer : c !! "optimizer" = Some (VObj (optimizer_state o)).
Proof. record_lookup. Qed.

Lemma record_best_top1 :
  c !! "best_top1" = if is_not_none best_top1 then Some best_top1 else None.
Proof. record_lookup. Qed.

Lemma record_compression_sched :
  c !! "compression_sched" = (λ s, VObj (scheduler_state s)) <$> scheduler.
Proof. record_lookup. Qed.

Lemma record_thinning_recipe : c !! "thinning_recipe" = thinning_recipe_of m.
Proof. record_lookup. Qed.

Lemma record_dom : dom c ⊆ record_fields.
Proof.
  unfold checkpoint_record, record_fields.
  destruct (thinning_recipe_of m), scheduler, (is_not_none best_top1);
    rewrite ?dom_insert_L, dom_empty_L; intros k; set_unfold; tauto.
Qed.

End RecordFacts.

(** ** The file names *)

Lemma append_inj_r (p s t : string) : p ++ s = p ++ t → s = t.
Proof. induction p as [|a p IH]; simpl; [done|]. intros [= E]. auto. Qed.

Lemma filenames_differ (name : option string) :
  checkpoint_filename name ≠ best_filename name.
Proof.
  destruct name as [n|]; simpl; [|done].
  intros E. by apply append_inj_r in E.
Qed.

(** ** Runs of [save_checkpoint] *)

Section SaveFacts.
Context {O : PyObjects} {C : Collaborators}.
Variables (epoch : Z) (arch : string) (model optimizer : ref).
Variables (scheduler : option Scheduler) (best_top1 : value).
Variables (is_best : bool) (name : option string) (w0 : world).

#[local] Abbreviation record :=
  (checkpoint_record epoch arch (models w0 model) (optimizers w0 optimizer)
     scheduler best_top1).
#[local] Abbreviation primary := (checkpoint_filename name).
#[local] Abbreviation best := (best_filename name).
#[local] Abbreviation save :=
  (save_checkpoint epoch arch model optimizer scheduler best_top1 is_best name).

(** Unless a directory is in the way, the save returns, having added its
    log line and written the pickled record to the primary file and, for a
    best checkpoint, to the best file. *)
Lemma save_checkpoint_ok :
  is_dir w0 primary = false →
  (is_best = true → is_dir w0 best = false) →
  save w0 =
  (Ok tt,
   World
     (if is_best
      then <[best := Regular (serialize record)]>
             (<[primary := Regular (serialize record)]> (fs w0))
      else <[primary := Regular (serialize record)]> (fs w0))
     (log w0 ++ [("Saving checkpoint", [])]) (calls w0) (models w0)
     (optimizers w0)).
Proof.
  intros Hp Hb. unfold save_checkpoint, is_dir in *.
  unfold mbind, M_bind, mret, M_ret, msglogger_info, get_model,
    get_optimizer, torch_save. simpl.
  destruct (fs w0 !! primary) as [[]|] eqn:E; try done.
  all: destruct is_best; [|done].
  all: unfold shutil_copyfile; simpl.
  all: destruct (decide _) as [D|_]; [by apply filenames_differ in D|].
  all: rewrite lookup_insert_eq, lookup_insert_ne by apply filenames_differ.
  all: specialize (Hb eq_refl).
  all: by destruct (fs w0 !! best) as [[]|].
Qed.

End SaveFacts.

Section SaveProperties.
Context {O : PyObjects} {C : Collaborators}.

(** C8. Unless a directory takes one of the two names, [save_checkpoint]
    returns; with [is_best] true the best file then holds the same bytes as
    the primary file; with [is_best] false the primary file is the only name
    whose content changed, so the best name is as it was before the call. *)
Theorem save_checkpoint_best_copy (epoch : Z) (arch : string)
  (model optimizer : ref) (scheduler : option Scheduler) (best_top1 : value)
  (is_best : bool) (name : option string) (w0 : world) :
  is_dir w0 (checkpoint_filename name) = false →
  (is_best = true → is_dir w0 (best_filename name) = false) →
  ∃ w1,
    save_checkpoint epoch arch model optimizer scheduler best_top1 is_best
      name w0 = (Ok tt, w1) ∧
    if is_best
    then ∃ data,
           fs w1 !! checkpoint_filename name = Some (Regular data) ∧
           fs w1 !! best_filename name = Some (Regular data)
    else (∃ data, fs w1 !! checkpoint_filename name = Some (Regular data)) ∧
         fs w1 !! best_filename name = fs w0 !! best_filename name ∧
         ∀ p, p ≠ checkpoint_filename name → fs w1 !! p = fs w0 !! p.
Proof.
  intros Hp Hb. eexists. split; [by apply save_checkpoint_ok|].
  pose proof (filenames_differ name) as Hne.
  destruct is_best; simpl.
  - eexists. split; [|apply lookup_insert_eq].
    rewrite lookup_insert_ne by done. apply lookup_insert_eq.
  - split; [eexists; apply lookup_insert_eq|].
    split; [by apply lookup_insert_ne|].
    intros p Hpne. by apply lookup_insert_ne.
Qed.

(** C9. The primary file is [<name>_checkpoint.pth.tar], or
    [checkpoint.pth.tar] when no name is given, and the best copy is
    [<name>_best.pth.tar], or [best.pth.tar]: however a save ends, no other
    name changes, and a save that returns has written the pickled record
    under the primary name and, for a best checkpoint, under the best name. *)
Theorem save_checkpoint_file_names (epoch : Z) (arch : string)
  (model optimizer : ref) (scheduler : option Scheduler) (best_top1 : value)
  (is_best : bool) (name : option string) (w0 w1 : world)
  (res : outcome unit) :
  let primary :=
    match name with
    | Some n => n ++ "_checkpoint.pth.tar"
    | None => "checkpoint.pth.tar"
    end in
  let best :=
    match name with
    | Some n => n ++ "_best.pth.tar"
    | None => "best.pth.tar"
    end in
  let data :=
    Regular (serialize (checkpoint_record epoch arch (models w0 model)
                          (optimizers w0 optimizer) scheduler best_top1)) in
  save_checkpoint epoch arch model optimizer scheduler best_top1 is_best
    name w0 = (res, w1) →
  (∀ p, p ≠ primary → p ≠ best → fs w1 !! p = fs w0 !! p) ∧
  (res = Ok tt →
   fs w1 = if is_best
           then <[best := data]> (<[primary := data]> (fs w0))
           else <[primary := data]> (fs w0)).
Proof.
  intros primary best data.
  change primary with (checkpoint_filename name).
  change best with (best_filename name). clear primary best.
  unfold save_checkpoint.
  unfold mbind, M_bind, mret, M_ret, msglogger_info, get_model,
    get_optimizer, torch_save. simpl.
  pose proof (filenames_differ name) as Hne.
  destruct (fs w0 !! checkpoint_filename name) as [[]|] eqn:E;
    try by intros [= <- <-].
  all: destruct is_best;
    [|intros [= <- <-]; split; [intros; by simplify_map_eq|done]].
  all: unfold shutil_copyfile; simpl.
  all: destruct (decide _) as [D|_]; [done|].
  all: rewrite lookup_insert_eq, lookup_insert_ne by done.
  all: destruct (fs w0 !! best_filename name) as [[]|]; intros [= <- <-].
  all: split; [intros; by simplify_map_eq|done].
Qed.

(** C10. The record a save writes always has the keys [epoch], [arch],
    [state_dict] and [optimizer], has [best_top1] exactly when the argument
    is not [None], and has no key outside the seven fields. *)
Theorem save_checkpoint_record_keys (epoch : Z) (arch : string)
  (model optimizer : ref) (scheduler : option Scheduler) (best_top1 : value)
  (is_best : bool) (name : option string) (w0 : world) :
  let record :=
    checkpoint_record epoch arch (models w0 model) (optimizers w0 optimizer)
      scheduler best_top1 in
  is_dir w0 (checkpoint_filename name) = false →
  (is_best = true → is_dir w0 (best_filename name) = false) →
  ∃ w1,
    save_checkpoint epoch arch model optimizer scheduler best_top1 is_best
      name w0 = (Ok tt, w1) ∧
    fs w1 !! checkpoint_filename name = Some (Regular (serialize record)) ∧
    "epoch" ∈ dom record ∧ "arch" ∈ dom record ∧
    "state_dict" ∈ dom record ∧ "optimizer" ∈ dom record ∧
    ("best_top1" ∈ dom record ↔ best_top1 ≠ VNone) ∧
    dom record ⊆ record_fields.
Proof.
  intros record Hp Hb. eexists. split; [by apply save_checkpoint_ok|].
  pose proof (filenames_differ name) as Hne.
  split.
  { destruct is_best; simpl; [rewrite lookup_insert_ne by done|];
      apply lookup_insert_eq. }
  subst record. rewrite !elem_of_dom.
  rewrite record_epoch, record_arch, record_state_dict, record_optimizer,
    record_best_top1.
  repeat (split; [by eexists|]).
  split; [|apply record_dom].
  destruct best_top1; simpl; split; try done; by intros [].
Qed.

(** C5. A model with the attribute [thinning_recipe] has it saved under the
    key [thinning_recipe], whatever the scheduler argument is, [None]
    included. *)
Theorem save_checkpoint_keeps_recipe (epoch : Z) (arch : string)
  (model optimizer : ref) (scheduler : option Scheduler) (best_top1 : value)
  (is_best : bool) (name : option string) (w0 : world) (recipe : value) :
  let record :=
    checkpoint_record epoch arch (models w0 model) (optimizers w0 optimizer)
      scheduler best_top1 in
  thinning_recipe_of (models w0 model) = Some recipe →
  is_dir w0 (checkpoint_filename name) = false →
  (is_best = true → is_dir w0 (best_filename name) = false) →
  ∃ w1,
    save_checkpoint epoch arch model optimizer scheduler best_top1 is_best
      name w0 = (Ok tt, w1) ∧
    fs w1 !! checkpoint_filename name = Some (Regular (serialize record)) ∧
    record !! "thinning_recipe" = Some recipe.
Proof.
  intros record Hr Hp Hb. eexists. split; [by apply save_checkpoint_ok|].
  pose proof (filenames_differ name) as Hne.
  split.
  - destruct is_best; simpl; [rewrite lookup_insert_ne by done|];
      apply lookup_insert_eq.
  - subst record. by rewrite record_thinning_recipe.
Qed.

End SaveProperties.

(** ** Runs of [load_checkpoint] *)

Section LoadProperties.
Context {O : PyObjects} {C : Collaborators}.

(** C3. When the path is not a regular file, [load_checkpoint] logs the
    error and ends in [exit(1)], not in an exception; no collaborator was
    called, and the models, the optimizers and the files are as before. *)
Theorem load_checkpoint_missing_file (model : ref) (chkpt_file : string)
  (optimizer : option ref) (w : world) :
  (∀ data, fs w !! chkpt_file ≠ Some (Regular data)) →
  ∃ w',
    load_checkpoint model chkpt_file optimizer w = (Exit 1, w') ∧
    models w' = models w ∧ calls w' = calls w ∧
    optimizers w' = optimizers w ∧ fs w' = fs w ∧
    log w' =
      (log w ++ [("Error: no checkpoint found at %s", [VStr chkpt_file])])%list.
Proof.
  intros Hf.
  exists (add_log ("Error: no checkpoint found at %s", [VStr chkpt_file]) w).
  split; [|done].
  unfold load_checkpoint, mbind, M_bind, os_path_isfile. simpl.
  destruct (fs w !! chkpt_file) as [[data|]|] eqn:E; [|done..].
  by destruct (Hf data).
Qed.

(** The optimizers are out of reach of every step of a load. *)
Lemma load_checkpoint_optimizers (model : ref) (chkpt_file : string)
  (optimizer : option ref) (w : world) :
  wp (load_checkpoint model chkpt_file optimizer) w
    (λ _ w', optimizers w' = optimizers w).
Proof.
  unfold load_checkpoint. repeat wp_step; reflexivity.
Qed.

(** C7. A load never touches an optimizer: whatever the file holds and
    however the load ends, every optimizer is in the state it was in before,
    the one passed as [optimizer] included, and the run does not depend on
    that argument at all. The optimizer state a save stored under the key
    [optimizer] is therefore never put back. *)
Theorem load_checkpoint_ignores_optimizer (model : ref) (chkpt_file : string)
  (optimizer : option ref) (w : world) :
  optimizers (load_checkpoint model chkpt_file optimizer w).2 = optimizers w ∧
  ∀ optimizer' : option ref,
    load_checkpoint model chkpt_file optimizer' w =
    load_checkpoint model chkpt_file optimizer w.
Proof.
  split; [apply load_checkpoint_optimizers|done].
Qed.

(** Without a schedule in the record, the only collaborator a load can call
    is [model.load_state_dict]. *)
Lemma load_checkpoint_no_schedule (model : ref) (chkpt_file : string)
  (optimizer : option ref) (w : world) (data : list byte)
  (record : gmap string value) :
  fs w !! chkpt_file = Some (Regular data) →
  deserialize data = Some record →
  record !! "compression_sched" = None →
  wp (load_checkpoint model chkpt_file optimizer) w (λ res w',
    (∃ new, calls w' = (calls w ++ new)%list ∧
            Forall (λ k, rebuilds_schedule k = false) new) ∧
    (∀ r, res = Ok r → r.1.2 = None)).
Proof.
  intros Hf Hd Hs. unfold load_checkpoint, py_in.
  repeat first [rewrite Hf | rewrite Hd | rewrite Hs | wp_step];
    simplify_eq/=.
  all: (split; [|by intros ? [= <-]]).
  all: first
    [ by exists []; rewrite app_nil_r
    | by eexists [_]; split; [|repeat constructor] ].
Qed.

(** C6. When the record in the file has no key [compression_sched], a load
    builds no scheduler, restores none and executes no thinning recipe,
    whether or not the record has a [thinning_recipe]: every call it adds to
    the trace is a [model.load_state_dict], the models other than the one
    passed are untouched, and if it returns, the scheduler it returns is
    [None]. *)
Theorem load_checkpoint_without_schedule (model : ref) (chkpt_file : string)
  (optimizer : option ref) (w : world) (data : list byte)
  (record : gmap string value) :
  fs w !! chkpt_file = Some (Regular data) →
  deserialize data = Some record →
  record !! "compression_sched" = None →
  ∀ res w', load_checkpoint model chkpt_file optimizer w = (res, w') →
    (∃ new, calls w' = (calls w ++ new)%list ∧
            ∀ k, k ∈ new → rebuilds_schedule k = false) ∧
    (∀ r, res = Ok r → r.1.2 = None).
Proof.
  intros Hf Hd Hs res w' Hrun.
  pose proof (load_checkpoint_no_schedule model _ optimizer w _ _ Hf Hd Hs)
    as Hwp.
  apply (wp_elim _ _ _ Hwp) in Hrun as [(new & Hcalls & Hnew) Hres].
  split; [|done]. exists new. split; [done|].
  exact (proj1 (list.Forall_forall _ _) Hnew).
Qed.

(** A load of a file that holds a record with an integer epoch and a state:
    it fails only where a collaborator fails, and when it returns it gives
    back the model reference, the next epoch and a scheduler exactly when
    the record has a schedule, having ended with [model.load_state_dict] on
    the record's state.  Without a schedule it logs the warning. *)
Lemma load_checkpoint_of_record (model : ref) (chkpt_file : string)
  (optimizer : option ref) (w : world) (data : list byte)
  (record : gmap string value) (epoch : Z) (state : value) :
  fs w !! chkpt_file = Some (Regular data) →
  deserialize data = Some record →
  record !! "epoch" = Some (VInt epoch) →
  record !! "state_dict" = Some state →
  wp (load_checkpoint model chkpt_file optimizer) w (λ res w',
    (record !! "compression_sched" = None →
     ("Warning: compression schedule data does not exist in the checkpoint",
      []) ∈ log w') ∧
    match res with
    | Ok (m, s, start_epoch) =>
        m = model ∧ start_epoch = VInt (epoch + 1) ∧
        (s = None ↔ record !! "compression_sched" = None) ∧
        ∃ m0, load_state_dict_into state m0 = Return (models w' model)
    | Raise e => ∃ what, e = External what
    | Exit _ => False
    end).
Proof.
  intros Hf Hd He Hst. unfold load_checkpoint, py_in.
  destruct (record !! "compression_sched") eqn:Hs,
    (record !! "thinning_recipe") eqn:Hr.
  all: repeat first
    [rewrite Hf | rewrite Hd | rewrite He | rewrite Hst | rewrite Hs
    | rewrite Hr | wp_step]; simplify_eq/=.
  all: split;
    [ first [done | intros _; rewrite !elem_of_app, !list_elem_of_singleton;
                    naive_solver] |].
  all: try by eexists.
  all: rewrite ?fn_lookup_insert; repeat split; try done; by eexists.
Qed.

(** When every collaborator call returns, so does the load. *)
Lemma load_checkpoint_returns (model : ref) (chkpt_file : string)
  (optimizer : option ref) (w : world) (data : list byte)
  (record : gmap string value) (epoch : Z) (m' : Model) :
  fs w !! chkpt_file = Some (Regular data) →
  deserialize data = Some record →
  record !! "epoch" = Some (VInt epoch) →
  collaborators_accept record model w m' →
  wp (load_checkpoint model chkpt_file optimizer) w (λ res w',
    (∃ s, res = Ok (model, s, VInt (epoch + 1))) ∧ models w' model = m').
Proof.
  intros Hf Hd He (state & Hst & Hacc). unfold load_checkpoint, py_in.
  destruct (record !! "compression_sched") eqn:Hs.
  - destruct Hacc as (s0 & s1 & H0 & H1 & Hacc).
    destruct (record !! "thinning_recipe") eqn:Hr.
    + destruct Hacc as (m1 & s2 & H2 & H3).
      repeat first
        [rewrite Hf | rewrite Hd | rewrite He | rewrite Hst | rewrite Hs
        | rewrite Hr | rewrite H0 | rewrite H1 | rewrite H2
        | rewrite fn_lookup_insert | rewrite H3 | wp_step]; eauto.
    + repeat first
        [rewrite Hf | rewrite Hd | rewrite He | rewrite Hst | rewrite Hs
        | rewrite Hr | rewrite H0 | rewrite H1 | rewrite Hacc
        | rewrite fn_lookup_insert | wp_step]; eauto.
  - repeat first
      [rewrite Hf | rewrite Hd | rewrite He | rewrite Hst | rewrite Hs
      | rewrite Hacc | rewrite fn_lookup_insert | wp_step]; eauto.
Qed.

End LoadProperties.

(** ** A save followed by a load *)

Section RoundTrip.
Context {O : PyObjects} {C : Collaborators}.
Variables (epoch : Z) (arch : string) (model optimizer : ref).
Variables (scheduler : option Scheduler) (best_top1 : value).
Variables (is_best : bool) (name : option string) (w0 : world).

#[local] Abbreviation record :=
  (checkpoint_record epoch arch (models w0 model) (optimizers w0 optimizer)
     scheduler best_top1).

Lemma save_checkpoint_writes :
  is_dir w0 (checkpoint_filename name) = false →
  (is_best = true → is_dir w0 (best_filename name) = false) →
  ∃ w1,
    save_checkpoint epoch arch model optimizer scheduler best_top1 is_best
      name w0 = (Ok tt, w1) ∧
    fs w1 !! checkpoint_filename name = Some (Regular (serialize record)).
Proof.
  intros Hp Hb. eexists. split; [by apply save_checkpoint_ok|].
  pose proof (filenames_differ name) as Hne.
  destruct is_best; simpl; [rewrite lookup_insert_ne by done|];
    apply lookup_insert_eq.
Qed.

(** Loading the primary file of a save, in any world that holds this file. *)
Lemma load_saved_checkpoint (w1 w : world) (target : ref)
  (opt : option ref) :
  pickle_roundtrip →
  fs w1 !! checkpoint_filename name = Some (Regular (serialize record)) →
  fs w !! checkpoint_filename name = fs w1 !! checkpoint_filename name →
  ∀ res w2,
    load_checkpoint target (checkpoint_filename name) opt w = (res, w2) →
    (scheduler = None →
     ("Warning: compression schedule data does not exist in the checkpoint",
      []) ∈ log w2) ∧
    match res with
    | Ok (m, s, start_epoch) =>
        m = target ∧ start_epoch = VInt (epoch + 1) ∧
        (s = None ↔ scheduler = None) ∧
        ∃ m0, load_state_dict_into
                (VStateDict (state_dict_of (models w0 model))) m0
              = Return (models w2 target)
    | Raise e => ∃ what, e = External what
    | Exit _ => False
    end.
Proof.
  intros Hpickle Hw1 Hw res w2 Hrun. rewrite Hw1 in Hw.
  pose proof (load_checkpoint_of_record target _ opt w _ record epoch _
                Hw (Hpickle _) (record_epoch _ _ _ _ _ _)
                (record_state_dict _ _ _ _ _ _)) as Hwp.
  apply (wp_elim _ _ _ Hwp) in Hrun as [Hlog Hres].
  rewrite record_compression_sched in Hlog, Hres.
  split.
  - intros ->. by apply Hlog.
  - destruct res as [[[m s] e]|e|c]; [|done..].
    destruct Hres as (-> & -> & Hs & Hm). repeat split; try done.
    + intros E. apply Hs in E. by destruct scheduler.
    + intros ->. by apply Hs.
Qed.

(** The same load returns when the collaborators accept the record. *)
Lemma load_saved_checkpoint_returns (w1 w : world) (target : ref)
  (opt : option ref) (m' : Model) :
  pickle_roundtrip →
  fs w1 !! checkpoint_filename name = Some (Regular (serialize record)) →
  fs w !! checkpoint_filename name = fs w1 !! checkpoint_filename name →
  collaborators_accept record target w m' →
  ∃ s w2,
    load_checkpoint target (checkpoint_filename name) opt w
    = (Ok (target, s, VInt (epoch + 1)), w2) ∧
    models w2 target = m'.
Proof.
  intros Hpickle Hw1 Hw Hacc. rewrite Hw1 in Hw.
  pose proof (load_checkpoint_returns target _ opt w _ record epoch m'
                Hw (Hpickle _) (record_epoch _ _ _ _ _ _) Hacc) as Hwp.
  destruct (load_checkpoint target (checkpoint_filename name) opt w)
    as [res w2] eqn:Hrun.
  apply (wp_elim _ _ _ Hwp) in Hrun as [[s ->] Hm]. by exists s, w2.
Qed.

End RoundTrip.

Section RoundTripProperties.
Context {O : PyObjects} {C : Collaborators}.

(** C1. Provided [torch.load] inverts [torch.save] and a returning
    [model.load_state_dict(sd)] leaves the model with state [sd]: unless a
    directory takes a file name, a save returns, and a load of its primary
    file into any model, in any world that holds the file, fails only where
    a collaborator fails; when it returns, the target model has exactly the
    state the saved model exported; and it does return when the collaborators
    accept the record. *)
Theorem save_load_roundtrip (epoch : Z) (arch : string)
  (model optimizer : ref) (scheduler : option Scheduler) (best_top1 : value)
  (is_best : bool) (name : option string) (w0 : world) :
  let record :=
    checkpoint_record epoch arch (models w0 model) (optimizers w0 optimizer)
      scheduler best_top1 in
  pickle_roundtrip →
  load_state_dict_restores →
  is_dir w0 (checkpoint_filename name) = false →
  (is_best = true → is_dir w0 (best_filename name) = false) →
  ∃ w1,
    save_checkpoint epoch arch model optimizer scheduler best_top1 is_best
      name w0 = (Ok tt, w1) ∧
    ∀ (w : world) (target : ref) (opt : option ref),
      fs w !! checkpoint_filename name = fs w1 !! checkpoint_filename name →
      (∀ res w2,
         load_checkpoint target (checkpoint_filename name) opt w = (res, w2) →
         match res with
         | Ok (m, _, _) =>
             m = target ∧
             state_dict_of (models w2 target) = state_dict_of (models w0 model)
         | Raise e => ∃ what, e = External what
         | Exit _ => False
         end) ∧
      (∀ m', collaborators_accept record target w m' →
         ∃ s start_epoch w2,
           load_checkpoint target (checkpoint_filename name) opt w
           = (Ok (target, s, start_epoch), w2) ∧
           state_dict_of (models w2 target) = state_dict_of (models w0 model)).
Proof.
  intros record Hpickle Hlaw Hp Hb.
  destruct (save_checkpoint_writes epoch arch model optimizer scheduler
              best_top1 is_best name w0 Hp Hb) as (w1 & Hsave & Hw1).
  exists w1. split; [done|]. intros w target opt Hw.
  assert (∀ res w2,
    load_checkpoint target (checkpoint_filename name) opt w = (res, w2) →
    match res with
    | Ok (m, _, _) =>
        m = target ∧
        state_dict_of (models w2 target) = state_dict_of (models w0 model)
    | Raise e => ∃ what, e = External what
    | Exit _ => False
    end) as Hpart.
  { intros res w2 Hrun.
    destruct (load_saved_checkpoint _ _ _ _ _ _ _ _ _ _ _ _ Hpickle Hw1 Hw
                _ _ Hrun) as [_ Hres].
    destruct res as [[[m s] e]|e|c]; [|done..].
    destruct Hres as (-> & _ & _ & m0 & Hm). split; [done|].
    by apply Hlaw in Hm. }
  split; [exact Hpart|]. intros m' Hacc.
  destruct (load_saved_checkpoint_returns _ _ _ _ _ _ _ _ _ _ _ opt _
              Hpickle Hw1 Hw Hacc) as (s & w2 & Hrun & _).
  exists s, (VInt (epoch + 1)), w2. split; [done|].
  by destruct (Hpart _ _ Hrun).
Qed.

(** C2. Provided [torch.load] inverts [torch.save]: a load of the primary
    file of a save with epoch [e] fails only where a collaborator fails;
    when it returns its third result is [e + 1]; and it does return when the
    collaborators accept the record. *)
Theorem load_checkpoint_start_epoch (epoch : Z) (arch : string)
  (model optimizer : ref) (scheduler : option Scheduler) (best_top1 : value)
  (is_best : bool) (name : option string) (w0 : world) :
  let record :=
    checkpoint_record epoch arch (models w0 model) (optimizers w0 optimizer)
      scheduler best_top1 in
  pickle_roundtrip →
  is_dir w0 (checkpoint_filename name) = false →
  (is_best = true → is_dir w0 (best_filename name) = false) →
  ∃ w1,
    save_checkpoint epoch arch model optimizer scheduler best_top1 is_best
      name w0 = (Ok tt, w1) ∧
    ∀ (w : world) (target : ref) (opt : option ref),
      fs w !! checkpoint_filename name = fs w1 !! checkpoint_filename name →
      (∀ res w2,
         load_checkpoint target (checkpoint_filename name) opt w = (res, w2) →
         match res with
         | Ok (_, _, start_epoch) => start_epoch = VInt (epoch + 1)
         | Raise e => ∃ what, e = External what
         | Exit _ => False
         end) ∧
      (∀ m', collaborators_accept record target w m' →
         ∃ s w2,
           load_checkpoint target (checkpoint_filename name) opt w
           = (Ok (target, s, VInt (epoch + 1)), w2)).
Proof.
  intros record Hpickle Hp Hb.
  destruct (save_checkpoint_writes epoch arch model optimizer scheduler
              best_top1 is_best name w0 Hp Hb) as (w1 & Hsave & Hw1).
  exists w1. split; [done|]. intros w target opt Hw. split.
  - intros res w2 Hrun.
    destruct (load_saved_checkpoint _ _ _ _ _ _ _ _ _ _ _ _ Hpickle Hw1 Hw
                _ _ Hrun) as [_ Hres].
    destruct res as [[[m s] e]|e|c]; [|done..].
    by destruct Hres as (_ & -> & _).
  - intros m' Hacc.
    destruct (load_saved_checkpoint_returns _ _ _ _ _ _ _ _ _ _ _ opt _
                Hpickle Hw1 Hw Hacc) as (s & w2 & Hrun & _).
    by exists s, w2.
Qed.

(** C4. Provided [torch.load] inverts [torch.save]: a save with no scheduler
    writes a record without the key [compression_sched]; a load of that file
    logs the warning that the schedule does not exist, calls nothing that
    builds a scheduler, and when it returns its scheduler is [None]; it does
    return, with [None], when [model.load_state_dict] accepts the state. *)
Theorem save_without_scheduler (epoch : Z) (arch : string)
  (model optimizer : ref) (best_top1 : value) (is_best : bool)
  (name : option string) (w0 : world) :
  pickle_roundtrip →
  is_dir w0 (checkpoint_filename name) = false →
  (is_best = true → is_dir w0 (best_filename name) = false) →
  ∃ w1 data record,
    save_checkpoint epoch arch model optimizer None best_top1 is_best
      name w0 = (Ok tt, w1) ∧
    fs w1 !! checkpoint_filename name = Some (Regular data) ∧
    deserialize data = Some record ∧
    record !! "compression_sched" = None ∧
    ∀ (w : world) (target : ref) (opt : option ref),
      fs w !! checkpoint_filename name = fs w1 !! checkpoint_filename name →
      (∀ res w2,
         load_checkpoint target (checkpoint_filename name) opt w = (res, w2) →
         ("Warning: compression schedule data does not exist in the checkpoint",
          []) ∈ log w2 ∧
         (∀ k, k ∈ calls w2 → rebuilds_schedule k = true → k ∈ calls w) ∧
         match res with
         | Ok (_, s, _) => s = None
         | Raise e => ∃ what, e = External what
         | Exit _ => False
         end) ∧
      (∀ m',
         load_state_dict_into (VStateDict (state_dict_of (models w0 model)))
           (models w target) = Return m' →
         ∃ start_epoch w2,
           load_checkpoint target (checkpoint_filename name) opt w
           = (Ok (target, None, start_epoch), w2)).
Proof.
  intros Hpickle Hp Hb.
  destruct (save_checkpoint_writes epoch arch model optimizer None
              best_top1 is_best name w0 Hp Hb) as (w1 & Hsave & Hw1).
  eexists w1, _, _. split; [done|]. split; [exact Hw1|].
  split; [apply Hpickle|]. split; [by rewrite record_compression_sched|].
  intros w target opt Hw.
  assert (∀ res w2,
    load_checkpoint target (checkpoint_filename name) opt w = (res, w2) →
    match res with
    | Ok (_, s, _) => s = None
    | Raise e => ∃ what, e = External what
    | Exit _ => False
    end) as Hpart.
  { intros res w2 Hrun.
    destruct (load_saved_checkpoint _ _ _ _ _ _ _ _ _ _ _ _ Hpickle Hw1 Hw
                _ _ Hrun) as [_ Hres].
    destruct res as [[[m s] e]|e|c]; [|done..].
    destruct Hres as (_ & _ & Hs & _). by apply Hs. }
  split.
  - intros res w2 Hrun.
    destruct (load_saved_checkpoint _ _ _ _ _ _ _ _ _ _ _ _ Hpickle Hw1 Hw
                _ _ Hrun) as [Hlog _].
    split; [by apply Hlog|]. split; [|by apply (Hpart _ w2)].
    rewrite Hw1 in Hw.
    pose proof (load_checkpoint_no_schedule target _ opt w _ _ Hw
                  (Hpickle _) (record_compression_sched _ _ _ _ _ _)) as Hwp.
    apply (wp_elim _ _ _ Hwp) in Hrun as [(new & -> & Hnew) _].
    intros k [Hk|Hk]%elem_of_app Hreb; [done|].
    rewrite list.Forall_forall in Hnew. apply Hnew in Hk.
    congruence.
  - intros m' Hm.
    destruct (load_saved_checkpoint_returns epoch arch model optimizer None
                best_top1 name w0 w1 w target opt m' Hpickle Hw1 Hw)
      as (s & w2 & Hrun & _).
    { eexists. split; [apply record_state_dict|].
      by rewrite record_compression_sched. }
    exists (VInt (epoch + 1)), w2.
    specialize (Hpart _ _ Hrun). simpl in Hpart. by subst s.
Qed.

End RoundTripProperties.

(** ** Loads that fail before any collaborator is called *)

Section LoadErrors.
Context {O : PyObjects} {C : Collaborators}.

Lemma wp_run {A} (m : M A) w r w' :
  wp m w (λ r0 w0, r0 = r ∧ w0 = w') → m w = (r, w').
Proof. unfold wp. destruct (m w) as [r0 w0]. simpl. by intros [-> ->]. Qed.

(** X1. A file whose record has no key [epoch]: the load raises
    [KeyError('epoch')] right after the line that announces the loading;
    nothing else has changed, so no collaborator was called and the model is
    as it was. *)
Theorem load_checkpoint_missing_epoch (model : ref) (chkpt_file : string)
  (optimizer : option ref) (w : world) (data : list byte)
  (record : gmap string value) :
  fs w !! chkpt_file = Some (Regular data) →
  deserialize data = Some record →
  record !! "epoch" = None →
  load_checkpoint model chkpt_file optimizer w =
  (Raise (KeyError "epoch"),
   add_log ("=> loading checkpoint %s", [VStr chkpt_file]) w).
Proof.
  intros Hf Hd He. apply wp_run. unfold load_checkpoint.
  by repeat first [rewrite Hf | rewrite Hd | rewrite He | wp_step].
Qed.

(** X2. A regular file that does not unpickle: the failure of [torch.load]
    leaves the load as it is, after the line that announces the loading and
    before anything touches the model. *)
Theorem load_checkpoint_corrupt_file (model : ref) (chkpt_file : string)
  (optimizer : option ref) (w : world) (data : list byte) :
  fs w !! chkpt_file = Some (Regular data) →
  deserialize data = None →
  load_checkpoint model chkpt_file optimizer w =
  (Raise UnpicklingError,
   add_log ("=> loading checkpoint %s", [VStr chkpt_file]) w).
Proof.
  intros Hf Hd. apply wp_run. unfold load_checkpoint.
  by repeat first [rewrite Hf | rewrite Hd | wp_step].
Qed.

(** X3. A record whose epoch is [None], a string or a dict: [epoch + 1]
    raises [TypeError] before the best accuracy is logged and before any
    collaborator is called. *)
Theorem load_checkpoint_bad_epoch (model : ref) (chkpt_file : string)
  (optimizer : option ref) (w : world) (data : list byte)
  (record : gmap string value) (epoch : value) :
  fs w !! chkpt_file = Some (Regular data) →
  deserialize data = Some record →
  record !! "epoch" = Some epoch →
  match epoch with VInt _ | VObj _ => False | _ => True end →
  load_checkpoint model chkpt_file optimizer w =
  (Raise TypeError,
   add_log ("=> loading checkpoint %s", [VStr chkpt_file]) w).
Proof.
  intros Hf Hd He Hty. apply wp_run. unfold load_checkpoint.
  destruct epoch; try done.
  all: by repeat first [rewrite Hf | rewrite Hd | rewrite He | wp_step].
Qed.

(** X4. A record with no key [state_dict]: the load never returns and never
    calls [model.load_state_dict]; the calls it does make are those of the
    schedule branch. *)
Theorem load_checkpoint_missing_state (model : ref) (chkpt_file : string)
  (optimizer : option ref) (w : world) (data : list byte)
  (record : gmap string value) :
  fs w !! chkpt_file = Some (Regular data) →
  deserialize data = Some record →
  record !! "state_dict" = None →
  ∀ res w', load_checkpoint model chkpt_file optimizer w = (res, w') →
    (∀ r, res ≠ Ok r) ∧
    ∃ new, calls w' = (calls w ++ new)%list ∧
           Forall (λ k, rebuilds_schedule k = true) new.
Proof.
  intros Hf Hd Hst. apply wp_elim. unfold load_checkpoint.
  repeat first [rewrite Hf | rewrite Hd | rewrite Hst | wp_step];
    simplify_eq/=.
  all: split; [done|].
  all: first
    [ by exists []; rewrite app_nil_r
    | rewrite <- ?app_assoc; eexists; split; [reflexivity|];
      by repeat constructor ].
Qed.

End LoadErrors.

(** ** What a load changes, and in which order *)

Section LoadEffects.
Context {O : PyObjects} {C : Collaborators}.

(** X5. A load writes no file and changes no model but the one it was
    given, whatever the file holds and however the load ends. *)
Theorem load_checkpoint_frame (model : ref) (chkpt_file : string)
  (optimizer : option ref) (w : world) :
  fs (load_checkpoint model chkpt_file optimizer w).2 = fs w ∧
  ∀ l, l ≠ model →
    models (load_checkpoint model chkpt_file optimizer w).2 l = models w l.
Proof.
  change (wp (load_checkpoint model chkpt_file optimizer) w
            (λ _ w', fs w' = fs w ∧ ∀ l, l ≠ model → models w' l = models w l)).
  unfold load_checkpoint. repeat wp_step.
  all: split; [done|]; intros l Hl; by rewrite ?fn_lookup_insert_ne.
Qed.

(** X6. Whatever the file holds, a load that returns gives back the model
    reference it was passed, and for a record with the integer epoch [e] its
    third result is [e + 1]. *)
Theorem load_checkpoint_result (model : ref) (chkpt_file : string)
  (optimizer : option ref) (w : world) (data : list byte)
  (record : gmap string value) (epoch : Z) :
  fs w !! chkpt_file = Some (Regular data) →
  deserialize data = Some record →
  record !! "epoch" = Some (VInt epoch) →
  ∀ m s start_epoch w',
    load_checkpoint model chkpt_file optimizer w
    = (Ok (m, s, start_epoch), w') →
    m = model ∧ start_epoch = VInt (epoch + 1) ∧
    (is_Some s ↔ is_Some (record !! "compression_sched")).
Proof.
  intros Hf Hd He m s start_epoch w' Hrun.
  assert (wp (load_checkpoint model chkpt_file optimizer) w (λ res _,
            ∀ m s start_epoch, res = Ok (m, s, start_epoch) →
              m = model ∧ start_epoch = VInt (epoch + 1) ∧
              (is_Some s ↔ is_Some (record !! "compression_sched"))))
    as Hwp.
  { unfold load_checkpoint, py_in.
    destruct (record !! "compression_sched") eqn:Hs.
    all: repeat first
      [rewrite Hf | rewrite Hd | rewrite He | rewrite Hs | wp_step];
      simplify_eq/=.
    all: intros ??? [= <- <- <-]; repeat split; try done.
    all: try by intros [].
    all: by eexists. }
  exact (wp_elim _ _ _ Hwp _ _ Hrun _ _ _ eq_refl).
Qed.

(** X7. The line with the best accuracy: a load of a record with an integer
    epoch logs it, with the stored value, exactly when the record holds a
    [best_top1] that is not [None]. *)
Theorem load_checkpoint_logs_best_top1 (model : ref) (chkpt_file : string)
  (optimizer : option ref) (w : world) (data : list byte)
  (record : gmap string value) (epoch : Z) :
  fs w !! chkpt_file = Some (Regular data) →
  deserialize data = Some record →
  record !! "epoch" = Some (VInt epoch) →
  ∀ res w', load_checkpoint model chkpt_file optimizer w = (res, w') →
    ∃ new, log w' = (log w ++ new)%list ∧
      if is_not_none (py_get record "best_top1")
      then ("   best top@1: %.3f", [py_get record "best_top1"]) ∈ new
      else Forall (λ r : log_record, r.1 ≠ "   best top@1: %.3f") new.
Proof.
  intros Hf Hd He. apply wp_elim. unfold load_checkpoint.
  destruct (is_not_none (py_get record "best_top1")) eqn:Hb.
  all: repeat first
    [rewrite Hf | rewrite Hd | rewrite He | rewrite Hb | wp_step];
    simplify_eq/=.
  all: rewrite <- ?app_assoc; eexists; (split; [reflexivity|]); simpl.
  all: first [by repeat constructor | set_solver].
Qed.

(** X8. The collaborator calls of a load come in the order of the source:
    what a load adds to the trace is always a beginning of
    [expected_calls], and all of it when the load returns.  So the scheduler
    is built before it is restored, the recipe is executed only inside the
    schedule branch, and the state is loaded last, into the thinned model. *)
Theorem load_checkpoint_call_order (model : ref) (chkpt_file : string)
  (optimizer : option ref) (w : world) (data : list byte)
  (record : gmap string value) :
  fs w !! chkpt_file = Some (Regular data) →
  deserialize data = Some record →
  ∀ res w', load_checkpoint model chkpt_file optimizer w = (res, w') →
    ∃ new, calls w' = (calls w ++ new)%list ∧
           new `prefix_of` expected_calls record model ∧
           (∀ r, res = Ok r → new = expected_calls record model).
Proof.
  intros Hf Hd. apply wp_elim. unfold load_checkpoint, py_in, expected_calls.
  destruct (record !! "compression_sched") eqn:Hs,
    (record !! "thinning_recipe") eqn:Hr, (record !! "state_dict") eqn:Hst.
  all: repeat first
    [rewrite Hf | rewrite Hd | rewrite Hs | rewrite Hr | rewrite Hst
    | wp_step]; simplify_eq/=.
  all: first
    [ exists []; split; [by rewrite app_nil_r|]
    | rewrite <- ?app_assoc; eexists; split; [reflexivity|] ]; simpl.
  all: split; [by eexists|]; by intros ? [=].
Qed.

End LoadEffects.

(** ** Loads that fail half-way, and the scheduler a load returns *)

Section LoadPartial.
Context {O : PyObjects} {C : Collaborators}.



(** X11. The scheduler a load returns, for a record with a schedule: it was
    built for the model passed, restored from the record's schedule and,
    when the record has a recipe, handed on by the thinning executor. *)
Theorem load_checkpoint_scheduler (model : ref) (chkpt_file : string)
  (optimizer : option ref) (w : world) (data : list byte)
  (record : gmap string value) (sched_state : value) :
  fs w !! chkpt_file = Some (Regular data) →
  deserialize data = Some record →
  record !! "compression_sched" = Some sched_state →
  ∀ m s start_epoch w',
    load_checkpoint model chkpt_file optimizer w
    = (Ok (m, s, start_epoch), w') →
    ∃ s0 s1,
      scheduler_init model (models w model) = Return s0 ∧
      scheduler_restore sched_state s0 = Return s1 ∧
      match record !! "thinning_recipe" with
      | None => s = Some s1
      | Some recipe =>
          ∃ m1 s2,
            thinning_apply recipe (models w model) s1 = Return (m1, s2) ∧
            s = Some s2
      end.
Proof.
  intros Hf Hd Hs m s start_epoch w' Hrun.
  assert (wp (load_checkpoint model chkpt_file optimizer) w (λ res _,
            ∀ m s start_epoch, res = Ok (m, s, start_epoch) →
              ∃ s0 s1,
                scheduler_init model (models w model) = Return s0 ∧
                scheduler_restore sched_state s0 = Return s1 ∧
                match record !! "thinning_recipe" with
                | None => s = Some s1
                | Some recipe =>
                    ∃ m1 s2,
                      thinning_apply recipe (models w model) s1
                      = Return (m1, s2) ∧
                      s = Some s2
                end)) as Hwp.
  { unfold load_checkpoint, py_in.
    destruct (record !! "thinning_recipe") eqn:Hr.
    all: repeat first
      [rewrite Hf | rewrite Hd | rewrite Hs | rewrite Hr | wp_step];
      simplify_eq/=; try done.
    all: intros ??? [= <- <- <-]; eauto 10. }
  exact (wp_elim _ _ _ Hwp _ _ Hrun _ _ _ eq_refl).
Qed.

End LoadPartial.

(** ** How a save ends, and what it leaves behind *)

Section SaveEffects.
Context {O : PyObjects} {C : Collaborators}.
Variables (epoch : Z) (arch : string) (model optimizer : ref).
Variables (scheduler : option Scheduler) (best_top1 : value).
Variables (is_best : bool) (name : option string) (w0 : world).

#[local] Abbreviation record :=
  (checkpoint_record epoch arch (models w0 model) (optimizers w0 optimizer)
     scheduler best_top1).
#[local] Abbreviation primary := (checkpoint_filename name).
#[local] Abbreviation best := (best_filename name).
#[local] Abbreviation save :=
  (save_checkpoint epoch arch model optimizer scheduler best_top1 is_best name).
#[local] Abbreviation logged := (add_log ("Saving checkpoint", []) w0).
#[local] Abbreviation written :=
  (set_fs (<[primary := Regular (serialize record)]> (fs w0)) logged).

(** The three ways a save can go. *)
Lemma save_checkpoint_cases :
  save w0 =
  if is_dir w0 primary then (Raise (IsADirectoryError primary), logged)
  else if is_best then
    if is_dir w0 best then (Raise (IsADirectoryError best), written)
    else (Ok tt,
          set_fs (<[best := Regular (serialize record)]> (fs written)) written)
  else (Ok tt, written).
Proof.
  unfold save_checkpoint, is_dir.
  unfold mbind, M_bind, mret, M_ret, msglogger_info, get_model,
    get_optimizer, torch_save. simpl.
  pose proof (filenames_differ name) as Hne.
  destruct (fs w0 !! primary) as [[]|] eqn:E; try done.
  all: destruct is_best; [|done].
  all: unfold shutil_copyfile; simpl.
  all: destruct (decide _) as [D|_]; [done|].
  all: rewrite lookup_insert_eq, lookup_insert_ne by done.
  all: by destruct (fs w0 !! best) as [[]|].
Qed.

(** X12. A save only reads the model, the optimizer and the scheduler:
    however it ends, every model and optimizer is as before, no collaborator
    that can change an object was called, and the log has one more line. *)
Theorem save_checkpoint_reads_only (res : outcome unit) (w1 : world) :
  save w0 = (res, w1) →
  models w1 = models w0 ∧ optimizers w1 = optimizers w0 ∧
  calls w1 = calls w0 ∧
  log w1 = (log w0 ++ [("Saving checkpoint", [])])%list.
Proof.
  rewrite save_checkpoint_cases.
  destruct (is_dir w0 primary), is_best, (is_dir w0 best);
    by intros [= <- <-].
Qed.


(** X14. A save is two writes, not one: when only the best name is a
    directory, a best save raises [IsADirectoryError] for the best name
    after the primary file has been written. *)
Theorem save_checkpoint_best_blocked :
  is_dir w0 primary = false →
  is_best = true →
  is_dir w0 best = true →
  save w0 = (Raise (IsADirectoryError best), written) ∧
  fs written !! primary = Some (Regular (serialize record)) ∧
  fs written !! best = Some Directory.
Proof.
  intros Hp Hb Hd. rewrite save_checkpoint_cases, Hp, Hb, Hd.
  split; [done|]. simpl. split; [apply lookup_insert_eq|].
  rewrite lookup_insert_ne by apply filenames_differ.
  unfold is_dir in Hd. by destruct (fs w0 !! best) as [[]|].
Qed.


End SaveEffects.

(** ** Saves and loads composed *)

Section Composition.
Context {O : PyObjects} {C : Collaborators}.

(** X16. What a save stores: unpickling the primary file gives a dict that
    maps [epoch] and [arch] to the arguments, [state_dict] to the model's
    state, [optimizer] to the optimizer's state, [best_top1] to the argument
    unless it is [None], and [compression_sched] to the scheduler's state
    when a scheduler was given. *)
Theorem save_checkpoint_stores (epoch : Z) (arch : string)
  (model optimizer : ref) (scheduler : option Scheduler) (best_top1 : value)
  (is_best : bool) (name : option string) (w0 : world) :
  pickle_roundtrip →
  is_dir w0 (checkpoint_filename name) = false →
  (is_best = true → is_dir w0 (best_filename name) = false) →
  ∃ w1 data record,
    save_checkpoint epoch arch model optimizer scheduler best_top1 is_best
      name w0 = (Ok tt, w1) ∧
    fs w1 !! checkpoint_filename name = Some (Regular data) ∧
    deserialize data = Some record ∧
    record !! "epoch" = Some (VInt epoch) ∧
    record !! "arch" = Some (VStr arch) ∧
    record !! "state_dict"
      = Some (VStateDict (state_dict_of (models w0 model))) ∧
    record !! "optimizer"
      = Some (VObj (optimizer_state (optimizers w0 optimizer))) ∧
    record !! "best_top1"
      = (if is_not_none best_top1 then Some best_top1 else None) ∧
    record !! "compression_sched"
      = (λ s, VObj (scheduler_state s)) <$> scheduler.
Proof.
  intros Hpickle Hp Hb.
  destruct (save_checkpoint_writes epoch arch model optimizer scheduler
              best_top1 is_best name w0 Hp Hb) as (w1 & Hsave & Hw1).
  eexists w1, _, _. split; [done|]. split; [exact Hw1|].
  split; [apply Hpickle|].
  by rewrite record_epoch, record_arch, record_state_dict, record_optimizer,
    record_best_top1, record_compression_sched.
Qed.

(** X17. Two saves under one name: the primary file holds the record of
    the second save, and the best file holds the record of the last save
    that was a best one, so a best checkpoint survives the saves that are
    not. *)
Theorem save_checkpoint_twice (epoch epoch' : Z) (arch arch' : string)
  (model optimizer model' optimizer' : ref)
  (scheduler scheduler' : option Scheduler) (best_top1 best_top1' : value)
  (is_best is_best' : bool) (name : option string) (w0 : world) :
  let record :=
    checkpoint_record epoch arch (models w0 model) (optimizers w0 optimizer)
      scheduler best_top1 in
  let record' :=
    checkpoint_record epoch' arch' (models w0 model')
      (optimizers w0 optimizer') scheduler' best_top1' in
  is_dir w0 (checkpoint_filename name) = false →
  is_dir w0 (best_filename name) = false →
  ∃ w1 w2,
    save_checkpoint epoch arch model optimizer scheduler best_top1 is_best
      name w0 = (Ok tt, w1) ∧
    save_checkpoint epoch' arch' model' optimizer' scheduler' best_top1'
      is_best' name w1 = (Ok tt, w2) ∧
    fs w2 !! checkpoint_filename name = Some (Regular (serialize record')) ∧
    fs w2 !! best_filename name =
      if is_best' then Some (Regular (serialize record'))
      else if is_best then Some (Regular (serialize record))
      else fs w0 !! best_filename name.
Proof.
  intros record record' Hp Hb.
  pose proof (filenames_differ name) as Hne.
  eexists _, _. split; [by apply save_checkpoint_ok|].
  split.
  { apply save_checkpoint_ok; unfold is_dir in *; simpl.
    - destruct is_best; by simplify_map_eq.
    - intros _. destruct is_best; simplify_map_eq; [done|].
      by destruct (fs w0 !! best_filename name) as [[]|]. }
  simpl. destruct is_best', is_best; by simplify_map_eq.
Qed.

(** X18. The best copy loads like the primary file: provided [torch.load]
    inverts [torch.save] and a returning [model.load_state_dict(sd)] leaves
    the model with state [sd], a load of the best file of a best save fails
    only where a collaborator fails, gives the next epoch and the saved
    state when it returns, and does return when the collaborators accept
    the record. *)
Theorem load_best_checkpoint (epoch : Z) (arch : string)
  (model optimizer : ref) (scheduler : option Scheduler) (best_top1 : value)
  (name : option string) (w0 : world) :
  let record :=
    checkpoint_record epoch arch (models w0 model) (optimizers w0 optimizer)
      scheduler best_top1 in
  pickle_roundtrip →
  load_state_dict_restores →
  is_dir w0 (checkpoint_filename name) = false →
  is_dir w0 (best_filename name) = false →
  ∃ w1,
    save_checkpoint epoch arch model optimizer scheduler best_top1 true
      name w0 = (Ok tt, w1) ∧
    ∀ (w : world) (target : ref) (opt : option ref),
      fs w !! best_filename name = fs w1 !! best_filename name →
      (∀ res w2,
         load_checkpoint target (best_filename name) opt w = (res, w2) →
         match res with
         | Ok (m, _, start_epoch) =>
             m = target ∧ start_epoch = VInt (epoch + 1) ∧
             state_dict_of (models w2 target) = state_dict_of (models w0 model)
         | Raise e => ∃ what, e = External what
         | Exit _ => False
         end) ∧
      (∀ m', collaborators_accept record target w m' →
         ∃ s w2,
           load_checkpoint target (best_filename name) opt w
           = (Ok (target, s, VInt (epoch + 1)), w2)).
Proof.
  intros record Hpickle Hlaw Hp Hb.
  eexists. split; [by apply save_checkpoint_ok|].
  intros w target opt Hw. simpl in Hw. rewrite lookup_insert_eq in Hw.
  split.
  - intros res w2 Hrun.
    pose proof (load_checkpoint_of_record target _ opt w _ record epoch _
                  Hw (Hpickle _) (record_epoch _ _ _ _ _ _)
                  (record_state_dict _ _ _ _ _ _)) as Hwp.
    apply (wp_elim _ _ _ Hwp) in Hrun as [_ Hres].
    destruct res as [[[m s] e]|e|c]; [|done..].
    destruct Hres as (-> & -> & _ & m0 & Hm). repeat split.
    by apply Hlaw in Hm.
  - intros m' Hacc.
    pose proof (load_checkpoint_returns target _ opt w _ record epoch m'
                  Hw (Hpickle _) (record_epoch _ _ _ _ _ _) Hacc) as Hwp.
    destruct (load_checkpoint target (best_filename name) opt w)
      as [res w2] eqn:Hrun.
    apply (wp_elim _ _ _ Hwp) in Hrun as [[s ->] _]. by exists s, w2.
Qed.

End Composition.

(** ** The reference collaborators obey the laws, and sample runs *)

Module Runs.
Import Demo.

Lemma bytes_to_pos_to_bytes (p : positive) :
  bytes_to_pos (pos_to_bytes p) = Some p.
Proof. induction p as [p IH|p IH|]; simpl; by rewrite ?IH. Qed.

Lemma demo_pickle_roundtrip : pickle_roundtrip.
Proof.
  intros d. simpl. rewrite bytes_to_pos_to_bytes. simpl. apply decode_encode.
Qed.

Lemma demo_load_state_dict_restores : load_state_dict_restores.
Proof.
  intros sd m m'. simpl. unfold load_params. case_decide; [|done].
  by intros [= <-].
Qed.

(** The scenario, run: the save, then a load into the fresh model. *)
Example run1_result :
  (run1 world0).1 = Ok tt ∧
  dom (fs (run1 world0).2) =
    {[ "run1_checkpoint.pth.tar"; "run1_best.pth.tar" ]} ∧
  load_checkpoint 1%nat "run1_checkpoint.pth.tar" None (run1 world0).2 =
    (Ok (1%nat, None, VInt 6),
     World (fs (run1 world0).2)
       [ ("Saving checkpoint", []);
         ("=> loading checkpoint %s", [VStr "run1_checkpoint.pth.tar"]);
         ("   best top@1: %.3f", [accuracy]);
         ("Warning: compression schedule data does not exist in the checkpoint",
          []);
         ("=> loaded checkpoint '%s' (epoch %d)",
          [VStr "run1_checkpoint.pth.tar"; VInt 5]) ]
       [ CallModelLoadStateDict 1 (VStateDict (params net)) ]
       (<[1%nat := net]> store) (λ _, "sgd")).
Proof. repeat split; by vm_compute. Qed.

(** With a schedule and a recipe in the record, a load into the fresh model
    rebuilds the scheduler, thins the model and then restores the state. *)
Example thinned_with_schedule :
  let run :=
    load_checkpoint 1%nat "checkpoint.pth.tar" None
      (save_thin (Some sched) world0).2 in
  run.1 = Ok (1%nat, Some (Scheduler_ 1 "masks"), VInt 4) ∧
  calls run.2 =
    [ CallCompressionScheduler 1; CallSchedulerLoadStateDict (VObj "masks");
      CallExecuteThinningRecipe 1 drop_bias;
      CallModelLoadStateDict 1 (VStateDict (params thin_net)) ] ∧
  models run.2 1%nat = thin_net.
Proof. repeat split; by vm_compute. Qed.

(** With the recipe and no schedule, the recipe stays unused: the fresh
    model keeps both layers, and the reference [load_state_dict], strict
    about names, rejects the state of the thinned model. *)
Example thinned_without_schedule :
  let run :=
    load_checkpoint 1%nat "checkpoint.pth.tar" None
      (save_thin None world0).2 in
  run.1 = Raise (External "Error(s) in loading state_dict") ∧
  calls run.2 = [ CallModelLoadStateDict 1 (VStateDict (params thin_net)) ] ∧
  models run.2 1%nat = fresh_net.
Proof. repeat split; by vm_compute. Qed.

(** The theorems above, applied to the sample runs. *)

(** The collaborators accept the record of [run1] for the fresh model. *)
Lemma run1_accepted (w1 : world) :
  run1 world0 = (Ok tt, w1) →
  collaborators_accept
    (checkpoint_record 5 "resnet18" (models world0 0%nat)
       (optimizers world0 0%nat) None accuracy)
    1%nat w1 net.
Proof.
  intros Hsave. vm_compute in Hsave. injection Hsave as <-.
  eexists. split; reflexivity.
Qed.

Lemma save_load_roundtrip_witness :
  ∃ w1 s start_epoch w2,
    run1 world0 = (Ok tt, w1) ∧
    load_checkpoint 1%nat "run1_checkpoint.pth.tar" None w1
    = (Ok (1%nat, s, start_epoch), w2) ∧
    params (models w2 1%nat) = params net.
Proof.
  destruct (save_load_roundtrip (C := collaborators)
              5 "resnet18" 0%nat 0%nat None accuracy true (Some "run1")
              world0 demo_pickle_roundtrip demo_load_state_dict_restores
              eq_refl (λ _, eq_refl)) as (w1 & Hsave & Hload).
  destruct (Hload w1 1%nat None eq_refl) as [_ Hret].
  destruct (Hret net (run1_accepted w1 Hsave))
    as (s & start_epoch & w2 & Hrun & Hsd).
  by exists w1, s, start_epoch, w2.
Defined.

Lemma load_checkpoint_start_epoch_witness :
  ∃ w1 s w2,
    run1 world0 = (Ok tt, w1) ∧
    load_checkpoint 1%nat "run1_checkpoint.pth.tar" None w1
    = (Ok (1%nat, s, VInt (5 + 1)), w2).
Proof.
  destruct (load_checkpoint_start_epoch (C := collaborators)
              5 "resnet18" 0%nat 0%nat None accuracy true (Some "run1")
              world0 demo_pickle_roundtrip eq_refl (λ _, eq_refl))
    as (w1 & Hsave & Hload).
  destruct (Hload w1 1%nat None eq_refl) as [_ Hret].
  destruct (Hret net (run1_accepted w1 Hsave)) as (s & w2 & Hrun).
  by exists w1, s, w2.
Defined.

Lemma load_checkpoint_missing_file_witness :
  (∃ w', load_checkpoint 0%nat "nowhere" None world0 = (Exit 1, w') ∧
         models w' = models world0 ∧ calls w' = calls world0 ∧
         optimizers w' = optimizers world0 ∧ fs w' = fs world0 ∧
         log w' = [("Error: no checkpoint found at %s", [VStr "nowhere"])]) ∧
  (∃ w', load_checkpoint 0%nat "ckpt" None world_dir = (Exit 1, w') ∧
         models w' = models world_dir ∧ calls w' = calls world_dir ∧
         optimizers w' = optimizers world_dir ∧ fs w' = fs world_dir ∧
         log w' = [("Error: no checkpoint found at %s", [VStr "ckpt"])]).
Proof.
  split.
  - apply (load_checkpoint_missing_file 0%nat "nowhere" None world0).
    intros data. vm_compute. discriminate.
  - apply (load_checkpoint_missing_file 0%nat "ckpt" None world_dir).
    intros data. vm_compute. discriminate.
Defined.

Lemma save_without_scheduler_witness :
  ∃ w1 data record start_epoch w2,
    run1 world0 = (Ok tt, w1) ∧
    fs w1 !! "run1_checkpoint.pth.tar" = Some (Regular data) ∧
    deserialize data = Some record ∧
    record !! "compression_sched" = None ∧
    load_checkpoint 1%nat "run1_checkpoint.pth.tar" None w1
    = (Ok (1%nat, None, start_epoch), w2) ∧
    ("Warning: compression schedule data does not exist in the checkpoint",
     []) ∈ log w2.
Proof.
  destruct (save_without_scheduler (C := collaborators)
              5 "resnet18" 0%nat 0%nat accuracy true (Some "run1")
              world0 demo_pickle_roundtrip eq_refl (λ _, eq_refl))
    as (w1 & data & record & Hsave & Hfile & Hdata & Hkey & Hload).
  destruct (Hload w1 1%nat None eq_refl) as [Hany Hret].
  destruct (Hret net) as (start_epoch & w2 & Hrun).
  { vm_compute in Hsave. injection Hsave as <-. reflexivity. }
  destruct (Hany _ _ Hrun) as (Hlog & _).
  by exists w1, data, record, start_epoch, w2.
Defined.

(** Saving the thinned model, reference 2, without a scheduler. *)
Lemma save_checkpoint_keeps_recipe_witness :
  ∃ w1,
    save_thin None world0 = (Ok tt, w1) ∧
    fs w1 !! "checkpoint.pth.tar" =
      Some (Regular (serialize
                       (checkpoint_record 3 "resnet18" (models world0 2%nat)
         (optimizers world0 0%nat) None VNone))) ∧
    checkpoint_record 3 "resnet18" (models world0 2%nat)
         (optimizers world0 0%nat) None VNone
      !! "thinning_recipe" = Some drop_bias.
Proof.
  apply (save_checkpoint_keeps_recipe (C := collaborators)
           3 "resnet18" 2%nat 0%nat None VNone
           false None world0 drop_bias).
  - reflexivity.
  - reflexivity.
  - intros [=].
Defined.

(** Loading that file: the record has a recipe and no schedule. *)
Lemma load_checkpoint_without_schedule_witness :
  let w :=
    (save_thin None world0).2 in
  let run := load_checkpoint 2%nat "checkpoint.pth.tar" None w in
  is_Some (checkpoint_record 3 "resnet18" (models world0 2%nat)
         (optimizers world0 0%nat) None VNone
             !! "thinning_recipe") ∧
  (∃ new, calls run.2 = (calls w ++ new)%list ∧
          ∀ k, k ∈ new → rebuilds_schedule k = false) ∧
  (∀ r, run.1 = Ok r → r.1.2 = None).
Proof.
  split; [by eexists|].
  apply (load_checkpoint_without_schedule (C := collaborators)
           2%nat "checkpoint.pth.tar" None _
           (serialize (checkpoint_record 3 "resnet18" (models world0 2%nat)
         (optimizers world0 0%nat) None VNone))
           (checkpoint_record 3 "resnet18" (models world0 2%nat)
         (optimizers world0 0%nat) None VNone)).
  - by vm_compute.
  - apply demo_pickle_roundtrip.
  - reflexivity.
  - apply surjective_pairing.
Defined.

Lemma save_checkpoint_best_copy_witness :
  ∃ w1,
    run1 world0 = (Ok tt, w1) ∧
    ∃ data,
      fs w1 !! "run1_checkpoint.pth.tar" = Some (Regular data) ∧
      fs w1 !! "run1_best.pth.tar" = Some (Regular data).
Proof.
  apply (save_checkpoint_best_copy (C := collaborators)
           5 "resnet18" 0%nat 0%nat None accuracy
           true (Some "run1") world0).
  - reflexivity.
  - intros _. reflexivity.
Defined.

Lemma save_checkpoint_file_names_witness :
  let data :=
    Regular (serialize (checkpoint_record 5 "resnet18" (models world0 0%nat)
      (optimizers world0 0%nat) None accuracy)) in
  (∀ p, p ≠ "run1_checkpoint.pth.tar" → p ≠ "run1_best.pth.tar" →
        fs (run1 world0).2 !! p = fs world0 !! p) ∧
  (Ok tt = Ok tt →
   fs (run1 world0).2 =
     <["run1_best.pth.tar" := data]>
       (<["run1_checkpoint.pth.tar" := data]> (fs world0))).
Proof.
  apply (save_checkpoint_file_names (C := collaborators)
           5 "resnet18" 0%nat 0%nat None
           accuracy true (Some "run1") world0 (run1 world0).2 (Ok tt)).
  by vm_compute.
Defined.

Lemma save_checkpoint_record_keys_witness :
  let record :=
    checkpoint_record 5 "resnet18" (models world0 0%nat)
      (optimizers world0 0%nat) None accuracy in
  ∃ w1,
    run1 world0 = (Ok tt, w1) ∧
    fs w1 !! "run1_checkpoint.pth.tar" = Some (Regular (serialize record)) ∧
    "epoch" ∈ dom record ∧ "arch" ∈ dom record ∧
    "state_dict" ∈ dom record ∧ "optimizer" ∈ dom record ∧
    ("best_top1" ∈ dom record ↔ accuracy ≠ VNone) ∧
    dom record ⊆ record_fields.
Proof.
  apply (save_checkpoint_record_keys (C := collaborators)
           5 "resnet18" 0%nat 0%nat None
           accuracy true (Some "run1") world0).
  - reflexivity.
  - intros _. reflexivity.
Defined.

(** Loads of files that are not well-formed checkpoints. *)

Lemma load_checkpoint_missing_epoch_witness :
  load_checkpoint 0%nat "ckpt" None (world_of no_epoch) =
  (Raise (KeyError "epoch"),
   add_log ("=> loading checkpoint %s", [VStr "ckpt"]) (world_of no_epoch)).
Proof.
  apply (load_checkpoint_missing_epoch (C := collaborators)
           0%nat "ckpt" None (world_of no_epoch) (serialize no_epoch)
           no_epoch).
  - reflexivity.
  - apply demo_pickle_roundtrip.
  - reflexivity.
Defined.

Lemma load_checkpoint_corrupt_file_witness :
  load_checkpoint 0%nat "ckpt" None world_garbage =
  (Raise UnpicklingError,
   add_log ("=> loading checkpoint %s", [VStr "ckpt"]) world_garbage).
Proof.
  apply (load_checkpoint_corrupt_file (C := collaborators)
           0%nat "ckpt" None world_garbage [x02]).
  - reflexivity.
  - reflexivity.
Defined.

Lemma load_checkpoint_bad_epoch_witness :
  load_checkpoint 0%nat "ckpt" None (world_of bad_epoch) =
  (Raise TypeError,
   add_log ("=> loading checkpoint %s", [VStr "ckpt"]) (world_of bad_epoch)).
Proof.
  apply (load_checkpoint_bad_epoch (C := collaborators)
           0%nat "ckpt" None (world_of bad_epoch) (serialize bad_epoch)
           bad_epoch (VStr "five")).
  - reflexivity.
  - apply demo_pickle_roundtrip.
  - reflexivity.
  - exact I.
Defined.

Lemma load_checkpoint_missing_state_witness :
  let run := load_checkpoint 0%nat "ckpt" None (world_of no_state) in
  (∀ r, run.1 ≠ Ok r) ∧
  ∃ new, calls run.2 = (calls (world_of no_state) ++ new)%list ∧
         Forall (λ k, rebuilds_schedule k = true) new.
Proof.
  apply (load_checkpoint_missing_state (C := collaborators)
           0%nat "ckpt" None (world_of no_state) (serialize no_state)
           no_state eq_refl (demo_pickle_roundtrip _) eq_refl
           _ _ (surjective_pairing _)).
Defined.

(** Loads of the files of [run1] and of the thinned model. *)

Lemma load_checkpoint_result_witness :
  1%nat = 1%nat ∧ VInt 6 = VInt (5 + 1) ∧
  (is_Some (None : option scheduler) ↔
   is_Some (checkpoint_record 5 "resnet18" (models world0 0%nat)
              (optimizers world0 0%nat) None accuracy
            !! "compression_sched")).
Proof.
  eapply (load_checkpoint_result (C := collaborators)
            1%nat "run1_checkpoint.pth.tar" None (run1 world0).2
            (serialize (checkpoint_record 5 "resnet18" (models world0 0%nat)
                          (optimizers world0 0%nat) None accuracy))).
  - by vm_compute.
  - apply demo_pickle_roundtrip.
  - reflexivity.
  - exact (proj2 (proj2 run1_result)).
Defined.

Lemma load_checkpoint_logs_best_top1_witness :
  let run :=
    load_checkpoint 1%nat "run1_checkpoint.pth.tar" None (run1 world0).2 in
  ∃ new, log run.2 = (log (run1 world0).2 ++ new)%list ∧
         ("   best top@1: %.3f", [accuracy]) ∈ new.
Proof.
  apply (load_checkpoint_logs_best_top1 (C := collaborators)
           1%nat "run1_checkpoint.pth.tar" None (run1 world0).2
           (serialize (checkpoint_record 5 "resnet18" (models world0 0%nat)
                         (optimizers world0 0%nat) None accuracy))
           (checkpoint_record 5 "resnet18" (models world0 0%nat)
              (optimizers world0 0%nat) None accuracy) 5
           ltac:(by vm_compute) (demo_pickle_roundtrip _) eq_refl
           _ _ (surjective_pairing _)).
Defined.

Lemma load_checkpoint_call_order_witness :
  let w := (save_thin (Some sched) world0).2 in
  let run := load_checkpoint 1%nat "checkpoint.pth.tar" None w in
  ∃ new, calls run.2 = (calls w ++ new)%list ∧
    new `prefix_of`
      [ CallCompressionScheduler 1; CallSchedulerLoadStateDict masks_state;
        CallExecuteThinningRecipe 1 drop_bias;
        CallModelLoadStateDict 1 thin_state ] ∧
    (∀ r, run.1 = Ok r →
       new =
       [ CallCompressionScheduler 1; CallSchedulerLoadStateDict masks_state;
         CallExecuteThinningRecipe 1 drop_bias;
         CallModelLoadStateDict 1 thin_state ]).
Proof.
  apply (load_checkpoint_call_order (C := collaborators)
           1%nat "checkpoint.pth.tar" None (save_thin (Some sched) world0).2
           (serialize (checkpoint_record 3 "resnet18" (models world0 2%nat)
                         (optimizers world0 0%nat) (Some sched) VNone))
           (checkpoint_record 3 "resnet18" (models world0 2%nat)
              (optimizers world0 0%nat) (Some sched) VNone)
           ltac:(by vm_compute) (demo_pickle_roundtrip _)
           _ _ (surjective_pairing _)).
Defined.



Lemma load_checkpoint_scheduler_witness :
  ∃ s0 s1,
    scheduler_init 1%nat (models (save_thin (Some sched) world0).2 1%nat)
    = Return s0 ∧
    scheduler_restore masks_state s0 = Return s1 ∧
    ∃ m1 s2,
      thinning_apply drop_bias
        (models (save_thin (Some sched) world0).2 1%nat) s1
      = Return (m1, s2) ∧
      Some (Scheduler_ 1 "masks") = Some s2.
Proof.
  apply (load_checkpoint_scheduler (C := collaborators)
           1%nat "checkpoint.pth.tar" None (save_thin (Some sched) world0).2
           (serialize (checkpoint_record 3 "resnet18" (models world0 2%nat)
                         (optimizers world0 0%nat) (Some sched) VNone))
           (checkpoint_record 3 "resnet18" (models world0 2%nat)
              (optimizers world0 0%nat) (Some sched) VNone)
           masks_state ltac:(by vm_compute) (demo_pickle_roundtrip _)
           eq_refl 1%nat (Some (Scheduler_ 1 "masks")) (VInt 4)
           (load_checkpoint 1%nat "checkpoint.pth.tar" None
              (save_thin (Some sched) world0).2).2).
  by vm_compute.
Defined.

(** Saves. *)

Lemma save_checkpoint_reads_only_witness :
  models (run1 world0).2 = models world0 ∧
  optimizers (run1 world0).2 = optimizers world0 ∧
  calls (run1 world0).2 = calls world0 ∧
  log (run1 world0).2 = (log world0 ++ [("Saving checkpoint", [])])%list.
Proof.
  apply (save_checkpoint_reads_only (C := collaborators)
           5 "resnet18" 0%nat 0%nat None accuracy true (Some "run1") world0
           (Ok tt) (run1 world0).2).
  by vm_compute.
Defined.


Lemma save_checkpoint_best_blocked_witness :
  let record :=
    checkpoint_record 5 "resnet18" (models world_best_blocked 0%nat)
      (optimizers world_best_blocked 0%nat) None accuracy in
  let written :=
    set_fs (<["checkpoint.pth.tar" := Regular (serialize record)]>
              (fs world_best_blocked))
      (add_log ("Saving checkpoint", []) world_best_blocked) in
  save_checkpoint 5 "resnet18" 0%nat 0%nat None accuracy true None
    world_best_blocked
  = (Raise (IsADirectoryError "best.pth.tar"), written) ∧
  fs written !! "checkpoint.pth.tar" = Some (Regular (serialize record)) ∧
  fs written !! "best.pth.tar" = Some Directory.
Proof.
  apply (save_checkpoint_best_blocked (C := collaborators)
           5 "resnet18" 0%nat 0%nat None accuracy true None
           world_best_blocked).
  - reflexivity.
  - reflexivity.
  - reflexivity.
Defined.

Lemma save_checkpoint_stores_witness :
  ∃ w1 data record,
    run1 world0 = (Ok tt, w1) ∧
    fs w1 !! "run1_checkpoint.pth.tar" = Some (Regular data) ∧
    deserialize data = Some record ∧
    record !! "epoch" = Some (VInt 5) ∧
    record !! "arch" = Some (VStr "resnet18") ∧
    record !! "state_dict" = Some net_state ∧
    record !! "optimizer" = Some sgd_state ∧
    record !! "best_top1" = Some accuracy ∧
    record !! "compression_sched" = None.
Proof.
  apply (save_checkpoint_stores (C := collaborators)
           5 "resnet18" 0%nat 0%nat None accuracy true (Some "run1") world0
           demo_pickle_roundtrip).
  - reflexivity.
  - intros _. reflexivity.
Defined.

(** A best save at epoch 5, then a save at epoch 6 that is not a best one. *)
Lemma save_checkpoint_twice_witness :
  ∃ w1 w2,
    run1 world0 = (Ok tt, w1) ∧
    save_checkpoint 6 "resnet18" 0%nat 0%nat None accuracy false
      (Some "run1") w1 = (Ok tt, w2) ∧
    fs w2 !! "run1_checkpoint.pth.tar" =
      Some (Regular (serialize
                       (checkpoint_record 6 "resnet18" (models world0 0%nat)
                          (optimizers world0 0%nat) None accuracy))) ∧
    fs w2 !! "run1_best.pth.tar" =
      Some (Regular (serialize
                       (checkpoint_record 5 "resnet18" (models world0 0%nat)
                          (optimizers world0 0%nat) None accuracy))).
Proof.
  apply (save_checkpoint_twice (C := collaborators)
           5 6 "resnet18" "resnet18" 0%nat 0%nat 0%nat 0%nat None None
           accuracy accuracy true false (Some "run1") world0).
  - reflexivity.
  - reflexivity.
Defined.

Lemma load_best_checkpoint_witness :
  ∃ w1 s w2,
    run1 world0 = (Ok tt, w1) ∧
    load_checkpoint 1%nat "run1_best.pth.tar" None w1
    = (Ok (1%nat, s, VInt (5 + 1)), w2).
Proof.
  destruct (load_best_checkpoint (C := collaborators)
              5 "resnet18" 0%nat 0%nat None accuracy (Some "run1") world0
              demo_pickle_roundtrip demo_load_state_dict_restores
              eq_refl eq_refl) as (w1 & Hsave & Hload).
  destruct (Hload w1 1%nat None eq_refl) as [_ Hret].
  destruct (Hret net (run1_accepted w1 Hsave)) as (s & w2 & Hrun).
  by exists w1, s, w2.
Defined.

End Runs.
